(** * RogerEbert.com review crawler: a shallow embedding and its properties

    The development follows [src/scrapers/scraper_utils.py] and
    [src/scrapers/scrape_roger_ebert.py].

    - Python [float] is IEEE 754 binary64; it is modelled by [spec_float]
      with the operations of the Standard Library's [SpecFloat]
      (precision 53, [emax] 1024), which compute in [Z].
    - Python [str] is modelled by [string], read as the UTF-8 bytes of the
      text; whitespace, digits, letter case and lengths are those of ASCII
      text, on which the string functions agree with Python's. Where a
      property depends on that, it is stated for ASCII text
      ([PyStr.is_ascii]).
    - Python [dict] with string keys is a [gmap string value]; the seen-URL
      [set] is a [gset string].
    - [hashlib.md5] is written out (RFC 1321) over 32-bit words in [Z].
    - Library calls whose result depends on the outside world or on a large
      library ([requests], [bs4], [urllib.parse], the [float] parser) are
      section variables. *)

From Stdlib Require Import ZArith List Bool Lia Ascii String DecimalString.
From Stdlib Require Import Floats.SpecFloat.
From stdpp Require Import gmap strings list.

Local Open Scope Z_scope.

(* ===================================================================== *)
(** ** Python floats *)
(* ===================================================================== *)

Module PyFloat.

Definition prec : Z := 53.
Definition emax : Z := 1024.

Definition float : Type := spec_float.

Definition fmul : float -> float -> float := SFmul prec emax.
Definition fdiv : float -> float -> float := SFdiv prec emax.

(** Python [==] on floats. *)
Definition feqb : float -> float -> bool := SFeqb.

(** Python [<] on floats. *)
Definition fltb : float -> float -> bool := SFltb.

Definition of_Z (z : Z) : float := binary_normalize prec emax z 0 false.

Definition zero : float := S754_zero false.
Definition four : float := Eval vm_compute in of_Z 4.
Definition ten : float := Eval vm_compute in of_Z 10.

(** [num / den] rounded to the nearest integer, ties to even. *)
Definition half_even (num den : Z) : Z :=
  let q := num / den in
  let r := num mod den in
  match 2 * r ?= den with
  | Lt => q
  | Gt => q + 1
  | Eq => if Z.even q then q else q + 1
  end.

(** The integer nearest to [10 * m * 2^e], ties to even. *)
Definition tenths (m : positive) (e : Z) : Z :=
  match e with
  | Zneg k => half_even (Zpos m * 10) (Z.pow_pos 2 k)
  | _ => Zpos m * 10 * 2 ^ e
  end.

(** [round(x, 1)]: CPython prints [x] with one digit after the point,
    correctly rounded (ties to even on the exact binary value), and reads
    the decimal back to the nearest float; NaN, infinities and zeros are
    returned as they are and the sign is kept. *)
Definition round1 (x : float) : float :=
  match x with
  | S754_finite s m e =>
      match tenths m e with
      | Zpos n => SFdiv prec emax (S754_finite s n 0) (S754_finite false 10 0)
      | _ => S754_zero s
      end
  | _ => x
  end.

(** [x] with [j] added to its binary exponent: the exact product
    [x * 2^j] as long as the result stays a normal float. *)
Definition shift_exp (j : Z) (x : float) : float :=
  match x with
  | S754_finite s m e => S754_finite s m (e + j)
  | _ => x
  end.

(** The float [2^j], for [-1022 <= j <= 1023]. *)
Definition pow2 (j : Z) : float := S754_finite false 4503599627370496 (j - 52).

(** [x] can be multiplied by [2^j] without rounding: it is a zero, an
    infinity, NaN, or a normal float whose exponent stays in the normal
    range when [j] is added. *)
Definition scales_exactly (j : Z) (x : float) : Prop :=
  match x with
  | S754_finite _ m e => digits2_pos m = 53%positive /\ -1074 <= e + j <= 971
  | _ => True
  end.

End PyFloat.

(* ===================================================================== *)
(** ** Python strings *)
(* ===================================================================== *)

Module PyStr.

Local Open Scope string_scope.

Definition code (c : ascii) : N := N_of_ascii c.

(** ASCII characters for which [str.isspace] holds, which are also the
    ASCII characters matched by the regular expression [\s]. Python
    counts further characters as whitespace (U+0085, U+00A0, U+2003 and
    others): [strip] and [collapse_ws] below are those of the code on
    ASCII text. *)
Definition is_space (c : ascii) : bool :=
  let n := code c in
  ((9 <=? n) && (n <=? 13) || (28 <=? n) && (n <=? 32))%N.

(** The ASCII digits. Python's [\d], [str.isdigit] and [int] also take
    the decimal digits of other scripts: the functions that read digits
    are those of the code on ASCII text. *)
Definition is_digit (c : ascii) : bool :=
  let n := code c in ((48 <=? n) && (n <=? 57))%N.

(** [s.isascii()]: every character of the text is below U+0080, so that
    the text has one byte for each character. *)
Fixpoint is_ascii (s : string) : bool :=
  match s with
  | String c r => (code c <? 128)%N && is_ascii r
  | EmptyString => true
  end.

Fixpoint lstrip (s : string) : string :=
  match s with
  | String c r => if is_space c then lstrip r else s
  | EmptyString => EmptyString
  end.

Fixpoint all_space (s : string) : bool :=
  match s with
  | String c r => is_space c && all_space r
  | EmptyString => true
  end.

Fixpoint rstrip (s : string) : string :=
  match s with
  | String c r => if all_space s then EmptyString else String c (rstrip r)
  | EmptyString => EmptyString
  end.

(** [s.strip()] *)
Definition strip (s : string) : string := rstrip (lstrip s).

(** [re.sub(r'\s+', ' ', s)]: every maximal run of whitespace becomes one
    space. [in_run] tells that the previous character was whitespace. *)
Fixpoint collapse_ws (in_run : bool) (s : string) : string :=
  match s with
  | String c r =>
      if is_space c
      then (if in_run then collapse_ws true r else String " " (collapse_ws true r))
      else String c (collapse_ws false r)
  | EmptyString => EmptyString
  end.

(** [sep.join(l)] *)
Fixpoint join (sep : string) (l : list string) : string :=
  match l with
  | [] => ""
  | [x] => x
  | x :: r => x +:+ sep +:+ join sep r
  end.

(** Truthiness of a string: [bool(s)]. *)
Definition nonempty (s : string) : bool :=
  match s with EmptyString => false | _ => true end.

(** [a or b] on strings. *)
Definition str_or (a b : string) : string := if nonempty a then a else b.

(** [s.startswith(p)] *)
Definition startswith (s p : string) : bool := String.prefix p s.

(** [s[n:]] *)
Fixpoint drop (n : nat) (s : string) : string :=
  match n, s with
  | O, _ => s
  | S k, String _ r => drop k r
  | S _, EmptyString => EmptyString
  end.

(** [s[:n]] *)
Fixpoint take (n : nat) (s : string) : string :=
  match n, s with
  | S k, String c r => String c (take k r)
  | _, _ => EmptyString
  end.

(** [s.isdigit()] on ASCII text. *)
Fixpoint all_digits (s : string) : bool :=
  match s with
  | String c r => is_digit c && all_digits r
  | EmptyString => true
  end.
Definition isdigit (s : string) : bool := nonempty s && all_digits s.

(** [s.lower()] on ASCII text. *)
Definition lower_char (c : ascii) : ascii :=
  let n := code c in
  if ((65 <=? n) && (n <=? 90))%N then ascii_of_N (n + 32) else c.
Fixpoint lower (s : string) : string :=
  match s with
  | String c r => String (lower_char c) (lower r)
  | EmptyString => EmptyString
  end.

(** [s.split(d)] for a one-character delimiter: [cur] is the piece being
    read. *)
Fixpoint split_acc (d : ascii) (cur : string) (s : string) : list string :=
  match s with
  | String c r =>
      if Ascii.eqb c d then cur :: split_acc d "" r
      else split_acc d (cur +:+ String c "") r
  | EmptyString => [cur]
  end.
Definition split (d : ascii) (s : string) : list string := split_acc d "" s.

(** [str(n)] and [f"{n}"] for an [int]. *)
Definition of_int (n : Z) : string := NilZero.string_of_int (Z.to_int n).

(** Every character of [s] satisfies [p]. *)
Fixpoint all_chars (p : ascii -> bool) (s : string) : bool :=
  match s with
  | String c r => p c && all_chars p r
  | EmptyString => true
  end.

(** The longest prefix of [s] whose characters satisfy [p], and the rest. *)
Fixpoint take_while (p : ascii -> bool) (s : string) : string :=
  match s with
  | String c r => if p c then String c (take_while p r) else EmptyString
  | EmptyString => EmptyString
  end.

Fixpoint drop_while (p : ascii -> bool) (s : string) : string :=
  match s with
  | String c r => if p c then drop_while p r else s
  | EmptyString => EmptyString
  end.

(** The characters of [s] that satisfy [p]. *)
Fixpoint keep (p : ascii -> bool) (s : string) : string :=
  match s with
  | String c r => if p c then String c (keep p r) else keep p r
  | EmptyString => EmptyString
  end.

(** Some character of [s] satisfies [p]. *)
Fixpoint some_char (p : ascii -> bool) (s : string) : bool :=
  match s with
  | String c r => p c || some_char p r
  | EmptyString => false
  end.

(** [s.rsplit(' ', 1)[0]]: what precedes the last space, or all of [s]
    when it has no space. [before_last_space] is [None] without a space. *)
Fixpoint before_last_space (s : string) : option string :=
  match s with
  | String c r =>
      match before_last_space r with
      | Some p => Some (String c p)
      | None => if Ascii.eqb c " " then Some EmptyString else None
      end
  | EmptyString => None
  end.

Definition rsplit_space_head (s : string) : string :=
  match before_last_space s with
  | Some p => p
  | None => s
  end.

(** [s[:n]] for any [int] [n]: a negative [n] counts from the end. *)
Definition slice_to (n : Z) (s : string) : string :=
  if Z.ltb n 0 then take (Z.to_nat (Z.of_nat (String.length s) + n)) s
  else take (Z.to_nat n) s.

(** The value of a string of ASCII digits, read in base ten. *)
Fixpoint int_of_digits (acc : Z) (s : string) : Z :=
  match s with
  | String c r => int_of_digits (10 * acc + (Z.of_N (code c) - 48)) r
  | EmptyString => acc
  end.

(** [int(s)] for a string of ASCII digits; [None] is [ValueError]: for the
    empty string, and for a string of more than 640 digits that exceeds
    the interpreter's bound [sys.get_int_max_str_digits()], when there is
    one (4300 unless it is set; 0, and any interpreter before the bound
    was introduced, means none). *)
Definition int_of_str (max_str_digits : Z) (s : string) : option Z :=
  if nonempty s then
    let digits := Z.of_nat (String.length s) in
    if Z.ltb 640 digits && Z.ltb 0 max_str_digits && Z.ltb max_str_digits digits
    then None
    else Some (int_of_digits 0 s)
  else None.

(** [str.count("-")] *)
Fixpoint count_char (d : ascii) (s : string) : nat :=
  match s with
  | String c r => ((if Ascii.eqb c d then 1 else 0) + count_char d r)%nat
  | EmptyString => O
  end.

End PyStr.

(* ===================================================================== *)
(** ** Paths (os.path of a POSIX system) *)
(* ===================================================================== *)

Module OsPath.

Local Open Scope string_scope.

(** [p[:p.rfind("/") + 1]]: the path up to and including its last
    slash, empty for a path without slash. *)
Fixpoint head (p : string) : string :=
  match p with
  | String c r => if PyStr.some_char (Ascii.eqb "/") p then String c (head r) else ""
  | EmptyString => ""
  end.

(** [h.rstrip("/")] *)
Fixpoint rstrip_sep (h : string) : string :=
  match h with
  | String c r => if PyStr.all_chars (Ascii.eqb "/") h then "" else String c (rstrip_sep r)
  | EmptyString => ""
  end.

(** [os.path.dirname(p)] *)
Definition dirname (p : string) : string :=
  let h := head p in
  if PyStr.nonempty h && negb (PyStr.all_chars (Ascii.eqb "/") h) then rstrip_sep h else h.

End OsPath.

(* ===================================================================== *)
(** ** MD5 (hashlib.md5), RFC 1321 *)
(* ===================================================================== *)

Module MD5.

Definition mask32 : Z := 0xffffffff.
Definition w32 (x : Z) : Z := Z.land x mask32.
Definition add32 (x y : Z) : Z := w32 (x + y).
Definition not32 (x : Z) : Z := Z.lxor x mask32.
Definition rotl (x c : Z) : Z :=
  w32 (Z.lor (Z.shiftl x c) (Z.shiftr x (32 - c))).

Definition K : list Z :=
  [ 0xd76aa478; 0xe8c7b756; 0x242070db; 0xc1bdceee;
    0xf57c0faf; 0x4787c62a; 0xa8304613; 0xfd469501;
    0x698098d8; 0x8b44f7af; 0xffff5bb1; 0x895cd7be;
    0x6b901122; 0xfd987193; 0xa679438e; 0x49b40821;
    0xf61e2562; 0xc040b340; 0x265e5a51; 0xe9b6c7aa;
    0xd62f105d; 0x02441453; 0xd8a1e681; 0xe7d3fbc8;
    0x21e1cde6; 0xc33707d6; 0xf4d50d87; 0x455a14ed;
    0xa9e3e905; 0xfcefa3f8; 0x676f02d9; 0x8d2a4c8a;
    0xfffa3942; 0x8771f681; 0x6d9d6122; 0xfde5380c;
    0xa4beea44; 0x4bdecfa9; 0xf6bb4b60; 0xbebfbc70;
    0x289b7ec6; 0xeaa127fa; 0xd4ef3085; 0x04881d05;
    0xd9d4d039; 0xe6db99e5; 0x1fa27cf8; 0xc4ac5665;
    0xf4292244; 0x432aff97; 0xab9423a7; 0xfc93a039;
    0x655b59c3; 0x8f0ccc92; 0xffeff47d; 0x85845dd1;
    0x6fa87e4f; 0xfe2ce6e0; 0xa3014314; 0x4e0811a1;
    0xf7537e82; 0xbd3af235; 0x2ad7d2bb; 0xeb86d391 ].

Definition R : list Z :=
  [ 7; 12; 17; 22; 7; 12; 17; 22; 7; 12; 17; 22; 7; 12; 17; 22;
    5; 9; 14; 20; 5; 9; 14; 20; 5; 9; 14; 20; 5; 9; 14; 20;
    4; 11; 16; 23; 4; 11; 16; 23; 4; 11; 16; 23; 4; 11; 16; 23;
    6; 10; 15; 21; 6; 10; 15; 21; 6; 10; 15; 21; 6; 10; 15; 21 ].

Definition state : Type := (Z * Z * Z * Z)%type.

Definition init : state := (0x67452301, 0xefcdab89, 0x98badcfe, 0x10325476).

(** One of the 64 operations on a block [M] of 16 words. *)
Definition op (M : list Z) (i : nat) (st : state) : state :=
  let '(a, b, c, d) := st in
  let '(f, g) :=
    if (i <? 16)%nat then
      (Z.lor (Z.land b c) (Z.land (not32 b) d), i)
    else if (i <? 32)%nat then
      (Z.lor (Z.land d b) (Z.land (not32 d) c), ((5 * i + 1) mod 16)%nat)
    else if (i <? 48)%nat then
      (Z.lxor (Z.lxor b c) d, ((3 * i + 5) mod 16)%nat)
    else
      (Z.lxor c (Z.lor b (not32 d)), ((7 * i) mod 16)%nat) in
  let f' := add32 (add32 (add32 f a) (nth i K 0)) (nth g M 0) in
  (d, add32 b (rotl f' (nth i R 0)), b, c).

Definition block (M : list Z) (st : state) : state :=
  let '(a0, b0, c0, d0) := st in
  let '(a, b, c, d) := fold_left (fun s i => op M i s) (seq 0 64) st in
  (add32 a0 a, add32 b0 b, add32 c0 c, add32 d0 d).

(** Little-endian bytes of a number, [n] of them. *)
Fixpoint le_bytes (n : nat) (x : Z) : list Z :=
  match n with
  | O => []
  | S k => Z.land x 0xff :: le_bytes k (Z.shiftr x 8)
  end.

Fixpoint le_word (bs : list Z) : Z :=
  match bs with
  | [] => 0
  | b :: r => Z.lor b (Z.shiftl (le_word r) 8)
  end.

(** The message followed by 0x80, zero bytes up to 56 modulo 64, and the
    bit length on 8 bytes. *)
Definition pad (msg : list Z) : list Z :=
  let n := Z.of_nat (length msg) in
  let zeros := Z.to_nat ((55 - n) mod 64) in
  msg ++ [0x80] ++ repeat 0 zeros ++ le_bytes 8 (Z.land (8 * n) 0xffffffffffffffff).

(** Words of 4 bytes; [fuel] bounds the number of words. *)
Fixpoint words (fuel : nat) (bs : list Z) : list Z :=
  match fuel, bs with
  | S k, _ :: _ => le_word (firstn 4 bs) :: words k (skipn 4 bs)
  | _, _ => []
  end.

Fixpoint blocks (fuel : nat) (ws : list Z) (st : state) : state :=
  match fuel, ws with
  | S k, _ :: _ => blocks k (skipn 16 ws) (block (firstn 16 ws) st)
  | _, _ => st
  end.

Definition bytes_of_string (s : string) : list Z :=
  map (fun c => Z.of_N (N_of_ascii c)) (list_ascii_of_string s).

Definition digest (s : string) : list Z :=
  let p := pad (bytes_of_string s) in
  let ws := words (length p) p in
  let '(a, b, c, d) := blocks (length ws) ws init in
  le_bytes 4 a ++ le_bytes 4 b ++ le_bytes 4 c ++ le_bytes 4 d.

Definition hex_digit (x : Z) : ascii :=
  if x <? 10 then ascii_of_N (Z.to_N (48 + x)) else ascii_of_N (Z.to_N (87 + x)).

Fixpoint hex (bs : list Z) : string :=
  match bs with
  | [] => EmptyString
  | b :: r => String (hex_digit (Z.shiftr b 4)) (String (hex_digit (Z.land b 0xf)) (hex r))
  end.

(** [hashlib.md5(s.encode()).hexdigest()] *)
Definition hexdigest (s : string) : string := hex (digest s).

Definition is_hex (c : ascii) : bool :=
  let n := N_of_ascii c in
  ((48 <=? n) && (n <=? 57) || (97 <=? n) && (n <=? 102))%N.

End MD5.

(* ===================================================================== *)
(** ** scraper_utils.py *)
(* ===================================================================== *)

Local Open Scope string_scope.
Local Open Scope list_scope.

(** JSON values that occur in the documents this program writes. *)
Inductive value : Type :=
  | VNone
  | VInt (n : Z)
  | VFloat (x : PyFloat.float)
  | VStr (s : string)
  | VList (l : list string).

(** A document is a Python [dict] with string keys. *)
Abbreviation Document := (gmap string value).

Definition opt_value {A} (f : A -> value) (o : option A) : value :=
  match o with Some a => f a | None => VNone end.

(** [a or b] for [Optional[str]]: [None] and the empty string are falsy. *)
Definition opt_str_or (a b : option string) : option string :=
  match a with
  | Some s => if PyStr.nonempty s then a else b
  | None => b
  end.

(** [a or b] for [Optional[int]]: [None] and [0] are falsy. *)
Definition opt_int_or (a b : option Z) : option Z :=
  match a with
  | Some n => if Z.eqb n 0 then b else a
  | None => b
  end.

(** [a or b] for an [Optional[str]] and a [str]. *)
Definition opt_str_or_str (a : option string) (b : string) : string :=
  match a with
  | Some s => PyStr.str_or s b
  | None => b
  end.

(** [a or b] for an [Optional[int]] and an [int]. *)
Definition opt_int_or_int (a : option Z) (b : Z) : Z :=
  match a with
  | Some n => if Z.eqb n 0 then b else n
  | None => b
  end.

(** [a or b] for lists. *)
Definition list_or {A} (a b : list A) : list A :=
  match a with [] => b | _ => a end.

Module ScraperUtils.

(** [clean_text] on ASCII text: the callers pass a [str]; the empty text
    takes the early return. *)
Definition clean_text (text : string) : string :=
  if PyStr.nonempty text then PyStr.strip (PyStr.collapse_ws false text) else "".

Definition digit_val (c : ascii) : Z := Z.of_N (N_of_ascii c) - 48.

(** A match of [(19|20)\d{2}] at the start of [s]. *)
Definition year_at (s : string) : option Z :=
  match s with
  | String c1 (String c2 (String c3 (String c4 _))) =>
      if ((Ascii.eqb c1 "1" && Ascii.eqb c2 "9") || (Ascii.eqb c1 "2" && Ascii.eqb c2 "0"))
         && PyStr.is_digit c3 && PyStr.is_digit c4
      then Some (1000 * digit_val c1 + 100 * digit_val c2 + 10 * digit_val c3 + digit_val c4)
      else None
  | _ => None
  end.

(** [extract_year] on ASCII text: [re.search] returns the leftmost
    match. *)
Fixpoint extract_year (text : string) : option Z :=
  match year_at text with
  | Some y => Some y
  | None =>
      match text with
      | String _ r => extract_year r
      | EmptyString => None
      end
  end.

Definition normalize_rating (rating max_rating : PyFloat.float) : PyFloat.float :=
  if PyFloat.feqb max_rating PyFloat.zero then PyFloat.zero
  else PyFloat.round1 (PyFloat.fmul (PyFloat.fdiv rating max_rating) PyFloat.ten).

Definition generate_id (text prefix : string) : string :=
  let hash_hex := PyStr.take 12 (MD5.hexdigest text) in
  if PyStr.nonempty prefix then prefix +:+ "_" +:+ hash_hex else hash_hex.

Definition split_list (text : string) (delimiter : ascii) : list string :=
  if PyStr.nonempty text
  then filter (fun item => PyStr.nonempty item = true)
              (map PyStr.strip (PyStr.split delimiter text))
  else [].

Definition is_number_char (c : ascii) : bool :=
  PyStr.is_digit c || Ascii.eqb c ",".

(** [extract_number]: the leftmost maximal run of digits and commas, the
    commas removed, read by [int]; a [ValueError] of [int] gives [None].
    [max_str_digits] is the interpreter's [sys.get_int_max_str_digits()]. *)
Definition extract_number (max_str_digits : Z) (text : string) : option Z :=
  let rest := PyStr.drop_while (fun c => negb (is_number_char c)) text in
  match rest with
  | EmptyString => None
  | _ =>
      let number_str :=
        PyStr.keep (fun c => negb (Ascii.eqb c ","))
                   (PyStr.take_while is_number_char rest) in
      PyStr.int_of_str max_str_digits number_str
  end.

(** [truncate_text], for text whose characters are ASCII: [len] and the
    slice count characters, which are bytes here. *)
Definition truncate_text (text : string) (max_length : Z) : string :=
  if Z.leb (Z.of_nat (String.length text)) max_length then text
  else PyStr.rsplit_space_head (PyStr.slice_to max_length text) +:+ "...".

End ScraperUtils.

Definition create_movie_document
    (title : string) (year : Z) (site url : string)
    (rating : option PyFloat.float)
    (genres directors cast : list string)
    (plot reviews : string) (num_reviews : option Z) : Document :=
  let id_text := title +:+ "_" +:+ PyStr.of_int year +:+ "_" +:+ site in
  let doc_id := ScraperUtils.generate_id id_text site in
  <["id" := VStr doc_id]>
  (<["title" := VStr title]>
  (<["year" := VInt year]>
  (<["site" := VStr site]>
  (<["url" := VStr url]>
  (<["rating" := opt_value VFloat rating]>
  (<["genres" := VList genres]>
  (<["directors" := VList directors]>
  (<["cast" := VList cast]>
  (<["plot" := VStr plot]>
  (<["reviews" := VStr reviews]>
  (<["num_reviews" := opt_value VInt num_reviews]> ∅))))))))))).

(* ===================================================================== *)
(** ** scrape_roger_ebert.py: data model *)
(* ===================================================================== *)

Definition BASE_URL : string := "https://www.rogerebert.com".

Definition START_LISTING_URLS : list string :=
  [ "https://www.rogerebert.com/"; "https://www.rogerebert.com/reviews" ].

Module ListingEntry.
Record t : Type := mk {
  title : string;
  url : string;
  year : option Z;
  critic : option string;
  summary : string
}.
End ListingEntry.

Module ReviewDetails.
Record t : Type := mk {
  review_text : string;
  rating_value : option PyFloat.float;
  rating_scale : PyFloat.float;
  review_date : option string;
  critic : option string;
  movie_year : option Z;
  movie_title : option string;
  movie_genres : list string;
  movie_directors : list string;
  movie_cast : list string
}.
End ReviewDetails.

(** ** Parsed pages

    [bs4] is not part of the repository. A parsed page is represented by
    the answers to the queries the scraper puts to it; every field is named
    after its query, and results are in document order. *)

(** An element: [tag.get(k)] is [attrs !! k], [tag.get("class")] is
    [classes], and [strings] are its text nodes. *)
Record Tag : Type := {
  attrs : gmap string string;
  classes : list string;
  strings : list string
}.

(** [tag.get_text()] *)
Definition get_text (t : Tag) : string := PyStr.join "" (strings t).

(** [tag.get_text(sep, strip=True)]: the stripped, non-empty text nodes
    joined by [sep]. *)
Definition get_text_strip (sep : string) (t : Tag) : string :=
  PyStr.join sep
    (filter (fun x => PyStr.nonempty x = true) (map PyStr.strip (strings t))).

(** [tag and tag.get(k)] when truthy: the element exists and its attribute
    is a non-empty string. *)
Definition truthy_attr (t : option Tag) (k : string) : option string :=
  match t with
  | Some tg =>
      match attrs tg !! k with
      | Some v => if PyStr.nonempty v then Some v else None
      | None => None
      end
  | None => None
  end.

(** [a or b] on elements: an element is always truthy. *)
Definition tag_or {A} (a b : option A) : option A :=
  match a with Some _ => a | None => b end.

(** The block around a listing link. *)
Record Container : Type := {
  find_tease : option Tag;          (* parent.find(class_="review-stack__tease") *)
  find_p : option Tag               (* parent.find("p") *)
}.

Record Anchor : Type := {
  a_tag : Tag;
  find_parent_article : option Container;   (* link.find_parent("article") *)
  find_parent_div : option Container        (* link.find_parent("div") *)
}.

Record Column : Type := {
  sel_genre_links : list Tag        (* column.select("a[href*='/genre/']") *)
}.

Record Heading : Type := {
  find_parent_div_of_heading : option Column   (* heading.find_parent("div") *)
}.

Record ContentLower : Type := {
  sel_credit_heading : option Heading   (* select_one(".credit-col h4.page-title") *)
}.

Record CreditCol : Type := {
  sel_h4 : option Tag;              (* column.select_one("h4") *)
  sel_li_a : list Tag;              (* column.select("li a") *)
  sel_li : list Tag                 (* column.select("li") *)
}.

Record InfoItem : Type := {
  sel_label : option Tag;           (* select_one("span.review-info__label") *)
  sel_value : option Tag            (* select_one("span.review-info__value") *)
}.

Record Body : Type := {
  sel_p : list Tag                  (* body.select("p") *)
}.

Record Soup : Type := {
  sel_review_links : list Anchor;            (* select('a[href*="/reviews/"]') *)
  sel_link_rel_next : option Tag;            (* select_one('link[rel="next"]') *)
  sel_a_rel_next : option Tag;               (* select_one('a[rel="next"]') *)
  sel_pagination_next : option Tag;          (* select_one(".pagination__next a") *)
  find_more_reviews : option Tag;            (* find("a", string=... "More Reviews") *)
  sel_meta_rating : option Tag;              (* 'meta[itemprop="ratingValue"]' *)
  sel_star_box : option Tag;                 (* "div.star-box img.filled" *)
  sel_star_rating : option Tag;              (* "span.star-rating" *)
  sel_meta_date : option Tag;                (* 'meta[itemprop="datePublished"]' *)
  sel_meta_og_time : option Tag;             (* 'meta[property="og:updated_time"]' *)
  sel_review_info_date : option Tag;         (* "span.review-info__date" *)
  sel_publish_date : option Tag;             (* "span.publish-date" *)
  sel_meta_author : option Tag;              (* 'meta[name="author"]' *)
  sel_contributor_link : option Tag;         (* 'a[href*="/contributors/"]' *)
  sel_byline_name : option Tag;              (* ".byline__name" *)
  sel_a_author : option Tag;                 (* "a.author" *)
  sel_h1_page_title : option Tag;            (* "h1.page-title" *)
  sel_h1 : option Tag;                       (* "h1" *)
  sel_review_info_deck : option Tag;         (* ".review-info__deck" *)
  sel_article_info_deck : option Tag;        (* ".article-info__deck" *)
  sel_meta_description : option Tag;         (* 'meta[name="description"]' *)
  sel_meta_og_description : option Tag;      (* 'meta[property="og:description"]' *)
  sel_content_lower : option ContentLower;   (* "#content-lower" *)
  sel_credit_cols : list CreditCol;          (* "#content-lower .credit-col" *)
  sel_review_info_items : list InfoItem;     (* "div.review-info__item" *)
  sel_review_body : option Body;             (* "div.review__body" *)
  sel_article_body : option Body;            (* "div.article-body" *)
  sel_entry_content : option Body            (* "div.entry-content" *)
}.

(* ===================================================================== *)
(** ** scrape_roger_ebert.py: the scraper *)
(* ===================================================================== *)

(** The output file, when it exists: a JSON array of objects; text that
    is not JSON, for which [json.load] raises [JSONDecodeError]; or a file
    of another kind, on which the load raises an exception that [crawl]
    does not catch (bytes that are not UTF-8, a JSON value that is not an
    array of objects, a directory). *)
Inductive File : Type :=
  | JsonDocs (docs : list Document)
  | Corrupt
  | Unreadable.

(** An exception that nothing in the scraper catches, by the name of its
    class. *)
Inductive Exception : Type :=
  | Exc (name : string).

Definition FileNotFoundError : Exception := Exc "FileNotFoundError".

(** A call returns a value or raises an exception. *)
Inductive Result (A : Type) : Type :=
  | Returned (a : A)
  | Raises (e : Exception).

Arguments Returned {A}.
Arguments Raises {A}.

(** What the crawler does to the outside world, in order. *)
Inductive Event : Type :=
  | GetListing (url : string)
  | GetDetail (url : string)
  | WriteFile (docs : list Document).

(** The [url] of a stored document, when it has one. *)
Definition doc_url (d : Document) : option string :=
  match d !! "url" with
  | Some (VStr u) => Some u
  | _ => None
  end.

(** A value that a [set] accepts as an element: a list cannot be
    hashed. *)
Definition hashable (v : value) : bool :=
  match v with
  | VList _ => false
  | _ => true
  end.

(** The start of [crawl] loads the output file without an exception: the
    file is absent, or text that is not JSON, or a JSON array of objects
    of which every [url] can be hashed; for another [url]
    [seen_review_urls.add(doc['url'])] raises [TypeError]. *)
Definition loads (file : option File) : bool :=
  match file with
  | Some (JsonDocs docs) =>
      forallb (fun doc : Document =>
                 match doc !! "url" with
                 | Some v => hashable v
                 | None => true
                 end) docs
  | Some Corrupt => true
  | Some Unreadable => false
  | None => true
  end.

Section RogerEbertScraper.

(** [float(s)]; [None] stands for [ValueError]. *)
Variable py_float : string -> option PyFloat.float.
(** [urllib.parse.urljoin(base, href)] *)
Variable urljoin : string -> string -> string.
(** [urllib.parse.urlparse(url).path] *)
Variable urlparse_path : string -> string.
(** The web: one GET changes the world and yields a parsed page, or
    nothing when the request fails. *)
Variable World : Type.
Variable http_get : World -> string -> World * option Soup.
(** [self.output_file], the path the scraper was built with. *)
Variable output_file : string.
(** The file system: [os.makedirs] of a directory name that is not empty,
    [open(path, "w")] and [json.dump] of the documents. [None] when they
    succeed, and otherwise the exception with which the directory or the
    write is refused. *)
Variable write_file : World -> string -> list Document -> option Exception.

(** *** Extraction helpers *)

Definition _get_soup (w : World) (url : string) : World * option Soup :=
  http_get w url.

Fixpoint star_class_rating (classes : list string) : option PyFloat.float :=
  match classes with
  | [] => None
  | cls :: rest =>
      if PyStr.startswith cls "star" && PyStr.isdigit (PyStr.drop 4 cls)
      then match py_float (PyStr.drop 4 cls) with
           | Some x => Some (PyFloat.fdiv x PyFloat.ten)
           | None => star_class_rating rest
           end
      else star_class_rating rest
  end.

Definition _extract_rating (soup : Soup) : option PyFloat.float :=
  let from_star_rating :=
    match truthy_attr (sel_star_rating soup) "data-rating" with
    | Some v => py_float v
    | None => None
    end in
  let from_star_box :=
    match sel_star_box soup with
    | Some star_box =>
        match star_class_rating (classes star_box) with
        | Some x => Some x
        | None => from_star_rating
        end
    | None => from_star_rating
    end in
  match truthy_attr (sel_meta_rating soup) "content" with
  | Some v =>
      match py_float v with
      | Some x => Some x
      | None => from_star_box
      end
  | None => from_star_box
  end.

Definition _extract_review_date (soup : Soup) : option string :=
  match truthy_attr (sel_meta_date soup) "content" with
  | Some v => Some v
  | None =>
      match truthy_attr (sel_meta_og_time soup) "content" with
      | Some v => Some (hd "" (PyStr.split "T" v))
      | None =>
          match tag_or (sel_review_info_date soup) (sel_publish_date soup) with
          | Some date_el => Some (ScraperUtils.clean_text (get_text date_el))
          | None => None
          end
      end
  end.

Definition _extract_critic (soup : Soup) : option string :=
  match truthy_attr (sel_meta_author soup) "content" with
  | Some v => Some v
  | None =>
      match sel_contributor_link soup with
      | Some author_link => Some (ScraperUtils.clean_text (get_text author_link))
      | None =>
          match tag_or (sel_byline_name soup) (sel_a_author soup) with
          | Some author_el => Some (ScraperUtils.clean_text (get_text author_el))
          | None => None
          end
      end
  end.

Definition _extract_movie_title (soup : Soup) : option string :=
  match tag_or (sel_h1_page_title soup) (sel_h1 soup) with
  | Some heading => Some (ScraperUtils.clean_text (get_text heading))
  | None => None
  end.

Definition _extract_summary (soup : Soup) : string :=
  match tag_or (sel_review_info_deck soup) (sel_article_info_deck soup) with
  | Some summary_el => ScraperUtils.clean_text (get_text_strip " " summary_el)
  | None =>
      match truthy_attr (tag_or (sel_meta_description soup) (sel_meta_og_description soup))
                        "content" with
      | Some v => ScraperUtils.clean_text v
      | None => ""
      end
  end.

Definition _extract_primary_credit_column (soup : Soup) : option Column :=
  match sel_content_lower soup with
  | None => None
  | Some container =>
      match sel_credit_heading container with
      | Some heading => find_parent_div_of_heading heading
      | None => None
      end
  end.

Definition _extract_genres (soup : Soup) : list string :=
  match _extract_primary_credit_column soup with
  | None => []
  | Some column =>
      fold_left
        (fun genres link =>
           let text := ScraperUtils.clean_text (get_text link) in
           if PyStr.nonempty text && negb (String.eqb (PyStr.lower text) "movie reviews")
           then (if bool_decide (text ∈ genres) then genres else genres ++ [text])
           else genres)
        (sel_genre_links column) []
  end.

Definition clean_nonempty (texts : list string) : list string :=
  filter (fun text => PyStr.nonempty text = true) (map ScraperUtils.clean_text texts).

Definition _extract_credit_list (soup : Soup) (labels : list string) : list string :=
  let label_set := map PyStr.lower labels in
  flat_map
    (fun column =>
       match sel_h4 column with
       | None => []
       | Some heading =>
           let heading_text := PyStr.lower (ScraperUtils.clean_text (get_text heading)) in
           if bool_decide (heading_text ∈ label_set)
           then match sel_li_a column with
                | [] => clean_nonempty (map (get_text_strip " ") (sel_li column))
                | links => clean_nonempty (map get_text links)
                end
           else []
       end)
    (sel_credit_cols soup).

Definition _extract_metadata_list (soup : Soup) (labels : list string) : list string :=
  let label_set := map PyStr.lower labels in
  let values :=
    flat_map
      (fun item =>
         match sel_label item, sel_value item with
         | Some label_el, Some value_el =>
             let label := PyStr.lower (ScraperUtils.clean_text (get_text label_el)) in
             if bool_decide (label ∈ label_set)
             then ScraperUtils.split_list (get_text_strip ", " value_el) ","
             else []
         | _, _ => []
         end)
      (sel_review_info_items soup) in
  match values with
  | [] => _extract_credit_list soup labels
  | _ => values
  end.

Definition _extract_review_body (soup : Soup) : string :=
  match tag_or (sel_review_body soup)
               (tag_or (sel_article_body soup) (sel_entry_content soup)) with
  | None => ""
  | Some body =>
      let paragraphs :=
        map (get_text_strip " ")
            (filter (fun p => PyStr.nonempty (get_text_strip "" p) = true) (sel_p body)) in
      PyStr.join " " paragraphs
  end.

(** The part of [_fetch_review] after the page has been fetched. *)
Definition review_of_soup (soup : Soup) : ReviewDetails.t :=
  let rating_value := _extract_rating soup in
  let review_date := _extract_review_date soup in
  let critic := _extract_critic soup in
  let movie_title := _extract_movie_title soup in
  let movie_year :=
    match movie_title with
    | Some t => if PyStr.nonempty t then ScraperUtils.extract_year (PyStr.str_or t "") else None
    | None => None
    end in
  let summary := _extract_summary soup in
  let genres := list_or (_extract_genres soup)
                        (_extract_metadata_list soup ["Genre"; "Genres"]) in
  let directors := _extract_metadata_list soup ["Directed by"; "Director"] in
  let cast := _extract_credit_list soup ["Cast"] in
  let review_text := _extract_review_body soup in
  {| ReviewDetails.review_text := PyStr.str_or review_text summary;
     ReviewDetails.rating_value := rating_value;
     ReviewDetails.rating_scale := PyFloat.four;
     ReviewDetails.review_date := review_date;
     ReviewDetails.critic := critic;
     ReviewDetails.movie_year := movie_year;
     ReviewDetails.movie_title := movie_title;
     ReviewDetails.movie_genres := genres;
     ReviewDetails.movie_directors := directors;
     ReviewDetails.movie_cast := cast |}.

Definition _fetch_review (w : World) (url : string) : World * option ReviewDetails.t :=
  let '(w', soup) := _get_soup w url in
  (w', option_map review_of_soup soup).

(** *** Document builder *)

Definition _build_document (entry : ListingEntry.t) (details : ReviewDetails.t) : Document :=
  let rating_normalized :=
    match ReviewDetails.rating_value details with
    | Some v => Some (ScraperUtils.normalize_rating v (ReviewDetails.rating_scale details))
    | None => None
    end in
  let title := opt_str_or_str (ReviewDetails.movie_title details) (ListingEntry.title entry) in
  let year := opt_int_or (ReviewDetails.movie_year details) (ListingEntry.year entry) in
  let doc :=
    create_movie_document
      title
      (opt_int_or_int year 0)
      "rogerebert"
      (ListingEntry.url entry)
      rating_normalized
      (ReviewDetails.movie_genres details)
      (ReviewDetails.movie_directors details)
      (ReviewDetails.movie_cast details)
      (PyStr.str_or (ListingEntry.summary entry) (ReviewDetails.review_text details))
      (ReviewDetails.review_text details)
      None in
  <["summary" := VStr (ListingEntry.summary entry)]>
  (<["rating_scale" := VFloat (ReviewDetails.rating_scale details)]>
  (<["rating_value" := opt_value VFloat (ReviewDetails.rating_value details)]>
  (<["review_date" := opt_value VStr (ReviewDetails.review_date details)]>
  (<["critic" := opt_value VStr
                   (opt_str_or (ReviewDetails.critic details) (ListingEntry.critic entry))]>
   doc)))).

(** *** Listing pages *)

Definition _looks_like_review (url : string) : bool :=
  let path := urlparse_path url in
  PyStr.startswith path "/reviews/" && (2 <=? PyStr.count_char "-" path)%nat.

Definition _extract_summary_near_link (link : Anchor) : string :=
  match tag_or (find_parent_article link) (find_parent_div link) with
  | Some parent =>
      match tag_or (find_tease parent) (find_p parent) with
      | Some teaser => ScraperUtils.clean_text (get_text teaser)
      | None => ""
      end
  | None => ""
  end.

(** The loop over the link candidates of [_parse_listing]; it stops once
    50 entries are collected. *)
Fixpoint listing_entries (links : list Anchor) (entries : list ListingEntry.t)
         (seen_urls : gset string) : list ListingEntry.t :=
  match links with
  | [] => entries
  | link :: rest =>
      match attrs (a_tag link) !! "href" with
      | None => listing_entries rest entries seen_urls
      | Some href =>
          if negb (PyStr.nonempty href) then listing_entries rest entries seen_urls
          else
            let review_url := urljoin BASE_URL href in
            if negb (_looks_like_review review_url) then listing_entries rest entries seen_urls
            else if bool_decide (review_url ∈ seen_urls) then listing_entries rest entries seen_urls
            else
              let title :=
                PyStr.str_or (ScraperUtils.clean_text (get_text (a_tag link))) "Untitled Review" in
              let summary := _extract_summary_near_link link in
              let year := opt_int_or (ScraperUtils.extract_year title)
                                     (ScraperUtils.extract_year summary) in
              let entries' :=
                entries ++ [ListingEntry.mk title review_url year None summary] in
              if (50 <=? length entries')%nat then entries'
              else listing_entries rest entries' ({[review_url]} ∪ seen_urls)
      end
  end.

(** [urls.add(urljoin(current_url, tag["href"]))] when the element and its
    [href] are there. *)
Definition add_href (current_url : string) (t : option Tag) (urls : gset string)
  : gset string :=
  match truthy_attr t "href" with
  | Some href => {[urljoin current_url href]} ∪ urls
  | None => urls
  end.

(** A Python [set] is iterated in an unspecified order; [elements] fixes
    one. *)
Definition _extract_next_listing_urls (soup : Soup) (current_url : string) : list string :=
  let urls := add_href current_url (sel_link_rel_next soup) ∅ in
  let urls := add_href current_url
                (tag_or (sel_a_rel_next soup) (sel_pagination_next soup)) urls in
  let urls := add_href current_url (find_more_reviews soup) urls in
  filter (fun u => PyStr.startswith u BASE_URL = true) (elements urls).

Definition _parse_listing (soup : Soup) (source_url : string)
  : list ListingEntry.t * list string :=
  (listing_entries (sel_review_links soup) [] ∅,
   _extract_next_listing_urls soup source_url).

(** *** The crawl *)

(** The state of a crawl session. [pending] holds the entries of the
    running [for entry in entries] loop that are still to be visited;
    [disk] is the output file and [trace] the events so far. *)
Record Session : Type := mkSession {
  world : World;
  documents : list Document;
  seen_review_urls : gset string;
  collected : nat;
  listing_queue : list string;
  pending : list ListingEntry.t;
  disk : option File;
  trace : list Event
}.

(** How one pass through the loops of [crawl] ends: the loops go on from
    a next state, the [while] loop is over, or an exception leaves
    [crawl]. *)
Inductive Outcome : Type :=
  | Next (s : Session)
  | Done
  | Raised (e : Exception).

(** [save]: nothing happens when there are no documents. Otherwise
    [os.makedirs(os.path.dirname(self.output_file), exist_ok=True)] comes
    first, and raises [FileNotFoundError] for the empty directory name of
    a path without directory part; then the file is opened for writing,
    which empties it, and the documents are dumped into it. A returned
    state is the state when [save] has returned. *)
Definition save (s : Session) : Result Session :=
  match documents s with
  | [] => Returned s
  | docs =>
      if PyStr.nonempty (OsPath.dirname output_file)
      then match write_file (world s) output_file docs with
           | None =>
               Returned (mkSession (world s) docs (seen_review_urls s) (collected s)
                                   (listing_queue s) (pending s) (Some (JsonDocs docs))
                                   (trace s ++ [WriteFile docs]))
           | Some e => Raises e
           end
      else Raises FileNotFoundError
  end.

(** [if 'url' in doc: seen_review_urls.add(doc['url'])]. A value that is
    not a string never equals the [url] of an entry and is left out; for
    a value that cannot be hashed (a list) the code raises [TypeError]
    instead, which [crawl] below takes into account ([loads]). *)
Definition seed_seen (existing_docs : list Document) : gset string :=
  fold_left
    (fun seen doc => match doc_url doc with Some u => {[u]} ∪ seen | None => seen end)
    existing_docs ∅.

(** The documents and the seen set after the load; nothing is loaded
    from a file that is not a JSON array. *)
Definition load_existing (file : option File) : list Document * gset string :=
  match file with
  | Some (JsonDocs existing_docs) => (existing_docs, seed_seen existing_docs)
  | Some Corrupt => ([], ∅)
  | Some Unreadable => ([], ∅)
  | None => ([], ∅)
  end.

(** [if x not in queue: queue.append(x)] for each [x]. *)
Definition enqueue_new (xs : list string) (queue : list string) : list string :=
  fold_left (fun q x => if bool_decide (x ∈ q) then q else q ++ [x]) xs queue.

Definition initial_queue (start_page : Z) : list string :=
  let q :=
    if Z.ltb 1 start_page
    then ["https://www.rogerebert.com/reviews/page/" +:+ PyStr.of_int start_page]
    else [] in
  enqueue_new START_LISTING_URLS q.

(** The session at the head of the [while] loop, before its first test. *)
Definition crawl_init (w : World) (file : option File) (start_page : Z) : Session :=
  let '(docs, seen) := load_existing file in
  mkSession w docs seen 0 (initial_queue start_page) [] file [].

(** The tail of the [for] body: append, mark seen, count, save every
    tenth. *)
Definition accept (entry : ListingEntry.t) (details : ReviewDetails.t) (s : Session)
  : Result Session :=
  let document := _build_document entry details in
  let s' :=
    mkSession (world s) (documents s ++ [document])
              ({[ListingEntry.url entry]} ∪ seen_review_urls s)
              (S (collected s)) (listing_queue s) (pending s) (disk s) (trace s) in
  if (collected s' mod 10 =? 0)%nat then save s' else Returned s'.

(** One pass through the loops of [crawl]: one entry of the running [for]
    loop, or, when no entry is pending, one test of the [while] condition
    followed by the fetch of the next listing page. *)
Definition iteration (limit : Z) (s : Session) : Outcome :=
  match pending s with
  | entry :: rest =>
      if Z.leb limit (Z.of_nat (collected s)) then
        Next (mkSession (world s) (documents s) (seen_review_urls s) (collected s)
                        (listing_queue s) [] (disk s) (trace s))
      else if bool_decide (ListingEntry.url entry ∈ seen_review_urls s) then
        Next (mkSession (world s) (documents s) (seen_review_urls s) (collected s)
                        (listing_queue s) rest (disk s) (trace s))
      else
        let '(w', details) := _fetch_review (world s) (ListingEntry.url entry) in
        let s1 :=
          mkSession w' (documents s) (seen_review_urls s) (collected s)
                    (listing_queue s) rest (disk s)
                    (trace s ++ [GetDetail (ListingEntry.url entry)]) in
        match details with
        | None => Next s1
        | Some d =>
            match accept entry d s1 with
            | Returned s' => Next s'
            | Raises e => Raised e
            end
        end
  | [] =>
      match listing_queue s with
      | [] => Done
      | listing_url :: queue =>
          if Z.ltb (Z.of_nat (collected s)) limit then
            let '(w', listing_soup) := _get_soup (world s) listing_url in
            let tr := trace s ++ [GetListing listing_url] in
            match listing_soup with
            | None =>
                Next (mkSession w' (documents s) (seen_review_urls s) (collected s)
                                queue [] (disk s) tr)
            | Some soup =>
                let '(entries, discovered_next) := _parse_listing soup listing_url in
                Next (mkSession w' (documents s) (seen_review_urls s) (collected s)
                                (enqueue_new discovered_next queue) entries (disk s) tr)
            end
          else Done
      end
  end.

(** One step of [crawl]: the state after one pass through the loops.
    [None]: there is no next state, as the [while] loop has ended or an
    exception has left [crawl]. *)
Definition step (limit : Z) (s : Session) : option Session :=
  match iteration limit s with
  | Next s' => Some s'
  | Done => None
  | Raised _ => None
  end.

(** [n] steps, or fewer when there is no next state earlier. *)
Fixpoint run (n : nat) (limit : Z) (s : Session) : Session :=
  match n with
  | O => s
  | S k =>
      match step limit s with
      | Some s' => run k limit s'
      | None => s
      end
  end.

(** [crawl] returns once the [while] loop has ended; [None]: it has not
    returned, within [fuel] steps or because of an exception, raised
    while the file is loaded or by [save]. *)
Definition crawl (fuel : nat) (limit start_page : Z) (w : World) (file : option File)
  : option Session :=
  if loads file then
    let s := run fuel limit (crawl_init w file start_page) in
    match iteration limit s with
    | Done => Some s
    | Next _ => None
    | Raised _ => None
    end
  else None.

(** [main]: crawl, then save; [None] also when this last [save] raises. *)
Definition main (fuel : nat) (limit start_page : Z) (w : World) (file : option File)
  : option Session :=
  match crawl fuel limit start_page w file with
  | Some s =>
      match save s with
      | Returned s' => Some s'
      | Raises _ => None
      end
  | None => None
  end.

End RogerEbertScraper.

Arguments mkSession {World}.
Arguments world {World}.
Arguments documents {World}.
Arguments seen_review_urls {World}.
Arguments collected {World}.
Arguments listing_queue {World}.
Arguments pending {World}.
Arguments disk {World}.
Arguments trace {World}.
Arguments Next {World}.
Arguments Done {World}.
Arguments Raised {World}.
Arguments save {World}.
Arguments accept {World}.
Arguments crawl_init {World}.

(* ===================================================================== *)
(** * Properties *)
(* ===================================================================== *)

(** ** Sample data used in the examples *)

Module Sample.

(** The float nearest to [n / 10], as Python reads the literal. *)
Definition tenth (n : Z) : PyFloat.float := PyFloat.fdiv (PyFloat.of_Z n) PyFloat.ten.

Definition no_tag : Tag := {| attrs := ∅; classes := []; strings := [] |}.

Definition text_tag (s : string) : Tag := {| attrs := ∅; classes := []; strings := [s] |}.

Definition attr_tag (k v : string) : Tag :=
  {| attrs := {[ k := v ]}; classes := []; strings := [] |}.

(** A page with the given review links, [link rel=next] element,
    "More Reviews" anchor, [h1], description [meta] and
    [div.entry-content]; every other query comes back empty. *)
Definition page (links : list Anchor) (rel_next more h1 description : option Tag)
           (entry_content : option Body) : Soup :=
  {| sel_review_links := links; sel_link_rel_next := rel_next; sel_a_rel_next := None;
     sel_pagination_next := None; find_more_reviews := more; sel_meta_rating := None;
     sel_star_box := None; sel_star_rating := None; sel_meta_date := None;
     sel_meta_og_time := None; sel_review_info_date := None; sel_publish_date := None;
     sel_meta_author := None; sel_contributor_link := None; sel_byline_name := None;
     sel_a_author := None; sel_h1_page_title := None; sel_h1 := h1;
     sel_review_info_deck := None; sel_article_info_deck := None;
     sel_meta_description := description; sel_meta_og_description := None;
     sel_content_lower := None; sel_credit_cols := []; sel_review_info_items := [];
     sel_review_body := None; sel_article_body := None;
     sel_entry_content := entry_content |}.

(** A page on which every query comes back empty. *)
Definition blank : Soup := page [] None None None None None.

(** A detail page whose only content is an empty [h1] element. *)
Definition empty_heading_page : Soup := page [] None None (Some no_tag) None None.


(** A [float] parser that knows no number; enough for pages without a
    rating. *)
Definition no_float (_ : string) : option PyFloat.float := None.

(** [urljoin] on an [href] that is already absolute. *)
Definition urljoin_absolute (_ href : string) : string := href.

(** A link to a host that merely begins with the site's host name. *)
Definition foreign_href : string :=
  "https://www.rogerebert.com.evil.example/reviews/page/2".

(** A listing page whose [link rel=next] points to that host. *)
Definition foreign_next_page : Soup :=
  page [] (Some (attr_tag "href" foreign_href)) None None None None.

(** The path of a plain absolute URL: what follows the authority, up to
    the first [?] or [#]. *)
Fixpoint skip_authority (s : string) : string :=
  match s with
  | String c r =>
      if Ascii.eqb c "/" || Ascii.eqb c "?" || Ascii.eqb c "#" then s
      else skip_authority r
  | EmptyString => ""
  end.

Fixpoint until_query (s : string) : string :=
  match s with
  | String c r =>
      if Ascii.eqb c "?" || Ascii.eqb c "#" then "" else String c (until_query r)
  | EmptyString => ""
  end.

Fixpoint url_path (url : string) : string :=
  match url with
  | String ":" (String "/" (String "/" r)) => until_query (skip_authority r)
  | String _ r => url_path r
  | EmptyString => ""
  end.

(** No network: every request fails. *)
Definition offline (w : unit) (_ : string) : unit * option Soup := (w, None).

(** A site on which every page carries a "More Reviews" anchor to the
    reviews listing and no review link. *)
Definition more_reviews_page : Soup :=
  page [] None (Some (attr_tag "href" "https://www.rogerebert.com/reviews")) None None None.

Definition self_link_site (w : unit) (_ : string) : unit * option Soup :=
  (w, Some more_reviews_page).

(** An anchor with an absolute [href] and a text, outside any block. *)
Definition review_link (href text : string) : Anchor :=
  {| a_tag := {| attrs := {[ "href" := href ]}; classes := []; strings := [text] |};
     find_parent_article := None; find_parent_div := None |}.

Definition review_url (slug : string) : string :=
  "https://www.rogerebert.com/reviews/" +:+ slug.

(** A site of two listing pages: the home page has three review links and
    a next link to the reviews listing, which has two review links and no
    next link. Every other URL is a review page with a heading. *)
Definition listing_one : Soup :=
  page [ review_link (review_url "jaws-movie-review-1975") "Jaws (1975)";
         review_link (review_url "alien-movie-review-1979") "Alien";
         review_link (review_url "heat-movie-review-1995") "Heat" ]
       (Some (attr_tag "href" "https://www.rogerebert.com/reviews")) None None None None.

Definition listing_two : Soup :=
  page [ review_link (review_url "fargo-movie-review-1996") "Fargo";
         review_link (review_url "se7en-movie-review-1995") "Se7en" ]
       None None None None None.

Definition review_page : Soup :=
  page [] None None (Some (text_tag " A Review ")) None
       (Some {| sel_p := [text_tag "Good."] |}).

Definition two_page_site (w : unit) (url : string) : unit * option Soup :=
  if String.eqb url "https://www.rogerebert.com/" then (w, Some listing_one)
  else if String.eqb url "https://www.rogerebert.com/reviews" then (w, Some listing_two)
  else (w, Some review_page).

(** A site whose home page lists twelve reviews; the reviews listing
    cannot be fetched. *)
Definition twelve_links : list Anchor :=
  map (fun slug => review_link (review_url (slug +:+ "-movie-review")) slug)
      ["a"; "b"; "c"; "d"; "e"; "f"; "g"; "h"; "i"; "j"; "k"; "l"].

Definition twelve_site (w : unit) (url : string) : unit * option Soup :=
  if String.eqb url "https://www.rogerebert.com/"
  then (w, Some (page twelve_links None None None None None))
  else if String.eqb url "https://www.rogerebert.com/reviews" then (w, None)
  else (w, Some review_page).

(** The urls of the write events of a trace, one list per write. *)
Definition writes (tr : list Event) : list (list (option string)) :=
  flat_map (fun e => match e with
                     | WriteFile docs => [map doc_url docs]
                     | _ => []
                     end) tr.

Definition jaws : ListingEntry.t :=
  ListingEntry.mk "Jaws" "https://www.rogerebert.com/reviews/jaws-movie-review-1975"
                  (Some 1975) None "A shark.".

(** An output path like the default one, and one without directory
    part. *)
Definition output_file : string := "data/raw/rogerebert_reviews.json".

Definition bare_output_file : string := "reviews.json".

(** A file system that accepts every write. *)
Definition write_ok (_ : unit) (_ : string) (_ : list Document) : option Exception := None.

Definition details (title : option string) (year : option Z)
           (rating : option PyFloat.float) : ReviewDetails.t :=
  ReviewDetails.mk "Review." rating PyFloat.four None None year title [] [] [].

End Sample.

(** ** Notions used to state the properties *)

(** The characters of [s] before the first [/], [?] or [#]. *)
Fixpoint authority (s : string) : string :=
  match s with
  | String c r =>
      if Ascii.eqb c "/" || Ascii.eqb c "?" || Ascii.eqb c "#" then ""
      else String c (authority r)
  | EmptyString => ""
  end.

(** The origin of an absolute URL: its scheme, ["://"], and its authority
    (host and port). *)
Fixpoint url_origin (url : string) : string :=
  match url with
  | String ":" (String "/" (String "/" r)) => "://" +:+ authority r
  | String c r => String c (url_origin r)
  | EmptyString => ""
  end.



(** What the output file holds, as far as [json.load] can read it back. *)
Definition persisted {World} (s : Session World) : list Document :=
  match disk s with
  | Some (JsonDocs docs) => docs
  | _ => []
  end.

(** The documents appended since the session [s0] started carry the urls
    [urls]: pairwise distinct, none of them in the seen set of [s0]; the
    seen set has grown by exactly these, and no detail page was requested
    for a url seen at the start. *)
Definition fresh_urls {World} (s0 s : Session World) : Prop :=
  exists new urls,
    documents s = documents s0 ++ new /\
    map doc_url new = map Some urls /\
    NoDup urls /\
    seen_review_urls s = seen_review_urls s0 ∪ list_to_set urls /\
    (forall u, u ∈ urls -> u ∉ seen_review_urls s0) /\
    (forall u, GetDetail u ∈ trace s -> u ∉ seen_review_urls s0).

(** All documents but the last [collected mod 10] are in the output
    file. *)
Definition checkpointed {World} (s : Session World) : Prop :=
  exists tail,
    documents s = persisted s ++ tail /\
    length tail = (collected s mod 10)%nat.

(** Every whitespace character of [s] is one space, and no space follows
    another; [after_space] tells that [s] comes right after a space or at
    the start of the text, where no space may stand. *)
Fixpoint single_spaced (after_space : bool) (s : string) : bool :=
  match s with
  | String c r =>
      if PyStr.is_space c
      then Ascii.eqb c " " && negb after_space && single_spaced true r
      else single_spaced false r
  | EmptyString => true
  end.

(** The last character of [s], if any, is not whitespace. *)
Fixpoint no_trailing_space (s : string) : bool :=
  match s with
  | String c EmptyString => negb (PyStr.is_space c)
  | String _ r => no_trailing_space r
  | EmptyString => true
  end.

(** Whitespace-normalized text: words separated by single spaces, nothing
    before the first word or after the last. *)
Definition is_clean (s : string) : bool :=
  single_spaced true s && no_trailing_space s.

(** [s] is [pre], then the characters [mid], then [post]. *)
Definition occurs_in (mid s : string) : Prop :=
  exists pre post, s = pre +:+ mid +:+ post.

(** [p] is an initial part of [s]. *)
Definition is_prefix (p s : string) : Prop :=
  exists rest, s = p +:+ rest.

(** The first character of [s], if any, is not whitespace. *)
Definition starts_clean (s : string) : bool :=
  match s with
  | String c _ => negb (PyStr.is_space c)
  | EmptyString => true
  end.

(** A listing entry as [_parse_listing] builds them: a non-empty
    normalized title, a url with a review path, no critic, a year between
    1900 and 2099 if any, and a normalized teaser. *)
Definition well_formed_entry (urlparse_path : string -> string) (e : ListingEntry.t) : Prop :=
  ListingEntry.title e <> "" /\
  is_clean (ListingEntry.title e) = true /\
  _looks_like_review urlparse_path (ListingEntry.url e) = true /\
  ListingEntry.critic e = None /\
  (forall y, ListingEntry.year e = Some y -> 1900 <= y <= 2099) /\
  is_clean (ListingEntry.summary e) = true.

(** A document as the crawl appends them: a non-empty normalized title, a
    year that is 0 or between 1900 and 2099, the site name, and a url with
    a review path. *)
Definition well_formed_document (urlparse_path : string -> string) (d : Document) : Prop :=
  exists title year url,
    d !! "title" = Some (VStr title) /\ title <> "" /\ is_clean title = true /\
    d !! "year" = Some (VInt year) /\ (year = 0 \/ 1900 <= year <= 2099) /\
    d !! "site" = Some (VStr "rogerebert") /\
    d !! "url" = Some (VStr url) /\ _looks_like_review urlparse_path url = true.



(** The keys of a document built by the scraper. *)
Definition document_keys : list string :=
  [ "id"; "title"; "year"; "site"; "url"; "rating"; "genres"; "directors"; "cast";
    "plot"; "reviews"; "num_reviews"; "critic"; "review_date"; "rating_value";
    "rating_scale"; "summary" ].

(** ** Rating normalization *)

Section Rating.

Import PyFloat.

Lemma fdiv_shift_exp (j : Z) (r s : float) :
  fdiv (shift_exp j r) (shift_exp j s) = fdiv r s.
Proof.
  destruct r as [| | |sr mr er], s as [| | |ss ms es]; try reflexivity.
  unfold fdiv, shift_exp, SFdiv, SFdiv_core_binary.
  replace (Zdigits2 (Z.pos mr) + (er + j) - (Zdigits2 (Z.pos ms) + (es + j)))
    with (Zdigits2 (Z.pos mr) + er - (Zdigits2 (Z.pos ms) + es)) by lia.
  replace (er + j - (es + j)) with (er - es) by lia.
  reflexivity.
Qed.

Lemma feqb_shift_exp_zero (j : Z) (s : float) :
  feqb (shift_exp j s) zero = feqb s zero.
Proof. destruct s; reflexivity. Qed.

Lemma normalize_rating_shift_exp (j : Z) (r s : float) :
  ScraperUtils.normalize_rating (shift_exp j r) (shift_exp j s)
  = ScraperUtils.normalize_rating r s.
Proof.
  unfold ScraperUtils.normalize_rating.
  rewrite feqb_shift_exp_zero, fdiv_shift_exp. reflexivity.
Qed.

Lemma four_not_zero : feqb four zero = false.
Proof. reflexivity. Qed.

(** Multiplying a normal float by [2^j] only moves its exponent. *)
Lemma fmul_pow2_normal (s : bool) (m : positive) (e j : Z) :
  digits2_pos m = 53%positive ->
  -1074 <= e + j <= 971 ->
  fmul (S754_finite s m e) (pow2 j) = S754_finite s m (e + j).
Proof.
  intros Hm Hrange.
  unfold fmul, pow2, SFmul.
  rewrite xorb_false_r, Pos.mul_comm.
  change (4503599627370496 * m)%positive
    with (m~0~0~0~0~0~0~0~0~0~0~0~0~0~0~0~0~0~0~0~0~0~0~0~0~0~0
           ~0~0~0~0~0~0~0~0~0~0~0~0~0~0~0~0~0~0~0~0~0~0~0~0~0~0)%positive.
  unfold binary_round_aux, shr_fexp.
  unfold Zdigits2 at 1.
  change (digits2_pos (m~0~0~0~0~0~0~0~0~0~0~0~0~0~0~0~0~0~0~0~0~0~0~0~0~0~0
                        ~0~0~0~0~0~0~0~0~0~0~0~0~0~0~0~0~0~0~0~0~0~0~0~0~0~0))
    with (Pos.iter Pos.succ (digits2_pos m) 52).
  rewrite Hm.
  change (Pos.iter Pos.succ 53%positive 52) with 105%positive.
  replace (fexp prec emax (105 + (e + (j - 52))) - (e + (j - 52))) with 52
    by (unfold fexp, emin, prec, emax; lia).
  change (shr (shr_record_of_loc
                 (Z.pos m~0~0~0~0~0~0~0~0~0~0~0~0~0~0~0~0~0~0~0~0~0~0~0~0~0~0
                         ~0~0~0~0~0~0~0~0~0~0~0~0~0~0~0~0~0~0~0~0~0~0~0~0~0~0)
                 loc_Exact)
              (e + (j - 52)) 52)
    with ({| shr_m := Z.pos m; shr_r := false; shr_s := false |}, e + (j - 52) + 52).
  cbn [shr_m loc_of_shr_record round_nearest_even shr_record_of_loc].
  unfold Zdigits2. rewrite Hm.
  replace (fexp prec emax (53 + (e + (j - 52) + 52)) - (e + (j - 52) + 52)) with 0
    by (unfold fexp, emin, prec, emax; lia).
  cbn [shr shr_m].
  replace (e + (j - 52) + 52) with (e + j) by lia.
  destruct (Z.leb_spec (e + j) (emax - prec)) as [_|Hbad]; [reflexivity|].
  unfold emax, prec in Hbad. lia.
Qed.

Lemma fmul_pow2 (j : Z) (x : float) :
  scales_exactly j x -> fmul x (pow2 j) = shift_exp j x.
Proof.
  destruct x as [sx|sx| |sx m e]; cbn [scales_exactly].
  - intros _. cbn. now rewrite xorb_false_r.
  - intros _. cbn. now rewrite xorb_false_r.
  - reflexivity.
  - intros [Hm Hrange]. now apply fmul_pow2_normal.
Qed.

End Rating.

Lemma build_document_rating_lookup (entry : ListingEntry.t) (details : ReviewDetails.t) :
  _build_document entry details !! "rating"
  = Some (opt_value VFloat
            (option_map (fun v => ScraperUtils.normalize_rating v
                                    (ReviewDetails.rating_scale details))
                        (ReviewDetails.rating_value details))).
Proof.
  unfold _build_document, create_movie_document.
  destruct (ReviewDetails.rating_value details); reflexivity.
Qed.

(** C3. Every document the crawler builds comes from [_build_document]
    applied to the details [_fetch_review] extracted from a page. When the
    page yields a rating value [v], the document's [rating] is
    [round((v / rating_scale) * 10, 1)] (the scale being the default 4.0);
    when it yields none, [rating] is [None]. *)
Theorem built_document_rating
    (py_float : string -> option PyFloat.float) (soup : Soup) (entry : ListingEntry.t) :
  let details := review_of_soup py_float soup in
  let doc := _build_document entry details in
  ReviewDetails.rating_scale details = PyFloat.four /\
  match ReviewDetails.rating_value details with
  | Some v =>
      doc !! "rating"
      = Some (VFloat (PyFloat.round1
                        (PyFloat.fmul (PyFloat.fdiv v (ReviewDetails.rating_scale details))
                                      PyFloat.ten)))
  | None => doc !! "rating" = Some VNone
  end.
Proof.
  intros details doc. split; [reflexivity|].
  unfold doc. rewrite build_document_rating_lookup.
  destruct (ReviewDetails.rating_value details) as [v|] eqn:Hv; simpl; [|reflexivity].
  unfold ScraperUtils.normalize_rating.
  change (ReviewDetails.rating_scale details) with PyFloat.four.
  rewrite four_not_zero. reflexivity.
Qed.

(** The same for any details whose scale is not zero. *)
Lemma build_document_rating_nonzero_scale
    (entry : ListingEntry.t) (details : ReviewDetails.t) (v : PyFloat.float) :
  ReviewDetails.rating_value details = Some v ->
  PyFloat.feqb (ReviewDetails.rating_scale details) PyFloat.zero = false ->
  _build_document entry details !! "rating"
  = Some (VFloat (PyFloat.round1
                    (PyFloat.fmul (PyFloat.fdiv v (ReviewDetails.rating_scale details))
                                  PyFloat.ten))).
Proof.
  intros Hv Hs. rewrite build_document_rating_lookup, Hv. simpl.
  unfold ScraperUtils.normalize_rating. rewrite Hs. reflexivity.
Qed.

Example rating_three_and_a_half_stars :
  _build_document Sample.jaws (Sample.details None None (Some (Sample.tenth 35))) !! "rating"
  = Some (VFloat (Sample.tenth 88)).
Proof. vm_compute. reflexivity. Qed.

(** The literals 3.5, 1.3, 8.8 and 8.7 as significand and exponent
    ([float.hex] gives 0x1.c p+1, 0x1.4cccccccccccd p+0, 0x1.199999999999a p+3
    and 0x1.1666666666666 p+3). *)
Example float_literals :
  Sample.tenth 35 = S754_finite false 7881299347898368 (-51) /\
  Sample.tenth 13 = S754_finite false 5854679515581645 (-52) /\
  Sample.tenth 88 = S754_finite false 4953959590107546 (-49) /\
  Sample.tenth 87 = S754_finite false 4897664594765414 (-49).
Proof. vm_compute. repeat split; reflexivity. Qed.

(** Half-star ratings out of four land on ties, which go to the even
    digit: 0.5, 1.5, 2.5 and 3.5 stars give 1.2, 3.8, 6.2 and 8.8. *)
Example half_star_ratings :
  map (fun n => ScraperUtils.normalize_rating (Sample.tenth n) PyFloat.four) [5; 15; 25; 35]
  = map Sample.tenth [12; 38; 62; 88].
Proof. vm_compute. reflexivity. Qed.

(** C4, as stated, fails in binary64 arithmetic: 3.5 out of 4.0 normalizes
    to 8.8, and after rescaling both by 1.3 (4.55 out of 5.2) to 8.7. *)
Lemma normalize_rating_rescaled_differs :
  let r := Sample.tenth 35 in
  let s := PyFloat.four in
  let k := Sample.tenth 13 in
  PyFloat.fltb PyFloat.zero s = true /\ PyFloat.fltb PyFloat.zero k = true /\
  ScraperUtils.normalize_rating r s = Sample.tenth 88 /\
  ScraperUtils.normalize_rating (PyFloat.fmul r k) (PyFloat.fmul s k) = Sample.tenth 87 /\
  PyFloat.feqb (ScraperUtils.normalize_rating r s)
               (ScraperUtils.normalize_rating (PyFloat.fmul r k) (PyFloat.fmul s k)) = false.
Proof. vm_compute. repeat split; reflexivity. Qed.

(** C4, amended. For a power of two [k = 2^j] and floats [r] and [s] that
    can be multiplied by it without rounding (zero, infinite, NaN, or normal
    with an exponent that stays in the normal range), normalization returns
    the same float for [(r * k, s * k)] as for [(r, s)]. *)
Theorem normalize_rating_power_of_two_invariant (r s : PyFloat.float) (j : Z) :
  -1022 <= j <= 1023 ->
  PyFloat.scales_exactly j r ->
  PyFloat.scales_exactly j s ->
  ScraperUtils.normalize_rating (PyFloat.fmul r (PyFloat.pow2 j))
                                (PyFloat.fmul s (PyFloat.pow2 j))
  = ScraperUtils.normalize_rating r s.
Proof.
  intros _ Hr Hs. rewrite (fmul_pow2 j r Hr), (fmul_pow2 j s Hs).
  apply normalize_rating_shift_exp.
Qed.

Lemma normalize_rating_power_of_two_invariant_witness :
  PyFloat.pow2 3 = PyFloat.of_Z 8 /\
  ScraperUtils.normalize_rating
    (PyFloat.fmul (Sample.tenth 35) (PyFloat.pow2 3))
    (PyFloat.fmul PyFloat.four (PyFloat.pow2 3))
  = ScraperUtils.normalize_rating (Sample.tenth 35) PyFloat.four.
Proof.
  split; [reflexivity|].
  apply (normalize_rating_power_of_two_invariant (Sample.tenth 35) PyFloat.four 3).
  - lia.
  - split; [reflexivity|vm_compute; split; discriminate].
  - split; [reflexivity|vm_compute; split; discriminate].
Defined.

(** ** Document identifiers *)

Section Md5Shape.

Lemma le_bytes_length (n : nat) (x : Z) : length (MD5.le_bytes n x) = n.
Proof.
  revert x. induction n as [|n IH]; intros x; simpl; [reflexivity|].
  now rewrite IH.
Qed.

Lemma le_bytes_range (n : nat) (x : Z) :
  Forall (fun b => 0 <= b < 256) (MD5.le_bytes n x).
Proof.
  revert x. induction n as [|n IH]; intros x; simpl; constructor; [|apply IH].
  change 0xff with (Z.ones 8). rewrite Z.land_ones by lia.
  apply Z.mod_pos_bound. lia.
Qed.

Lemma digest_length (s : string) : length (MD5.digest s) = 16%nat.
Proof.
  unfold MD5.digest.
  destruct (MD5.blocks _ _ _) as [[[a b] c] d].
  rewrite !length_app, !le_bytes_length. reflexivity.
Qed.

Lemma digest_range (s : string) : Forall (fun b => 0 <= b < 256) (MD5.digest s).
Proof.
  unfold MD5.digest.
  destruct (MD5.blocks _ _ _) as [[[a b] c] d].
  repeat (apply Forall_app; split); apply le_bytes_range.
Qed.

Lemma hex_length (bs : list Z) : String.length (MD5.hex bs) = (2 * length bs)%nat.
Proof.
  induction bs as [|b bs IH]; simpl; [reflexivity|]. rewrite IH. lia.
Qed.

Lemma hex_digit_is_hex (x : Z) : 0 <= x < 16 -> MD5.is_hex (MD5.hex_digit x) = true.
Proof.
  intros Hx.
  assert (x = 0 \/ x = 1 \/ x = 2 \/ x = 3 \/ x = 4 \/ x = 5 \/ x = 6 \/ x = 7 \/
          x = 8 \/ x = 9 \/ x = 10 \/ x = 11 \/ x = 12 \/ x = 13 \/ x = 14 \/ x = 15)
    as Hcases by lia.
  repeat (destruct Hcases as [->|Hcases]; [reflexivity|]).
  subst x. reflexivity.
Qed.

Lemma hex_all_hex (bs : list Z) :
  Forall (fun b => 0 <= b < 256) bs -> PyStr.all_chars MD5.is_hex (MD5.hex bs) = true.
Proof.
  induction 1 as [|b bs Hb _ IH]; simpl; [reflexivity|].
  rewrite IH, !hex_digit_is_hex; [reflexivity| |].
  - change 0xf with (Z.ones 4). rewrite Z.land_ones by lia.
    apply Z.mod_pos_bound. lia.
  - rewrite Z.shiftr_div_pow2 by lia. change (2 ^ 4) with 16.
    split; [apply Z.div_pos; lia | apply Z.div_lt_upper_bound; lia].
Qed.

Lemma take_length (n : nat) (s : string) :
  (n <= String.length s)%nat -> String.length (PyStr.take n s) = n.
Proof.
  revert s. induction n as [|n IH]; intros s Hn; [reflexivity|].
  destruct s as [|c r]; simpl in *; [lia|]. rewrite IH; [reflexivity|lia].
Qed.

Lemma take_all_chars (p : ascii -> bool) (n : nat) (s : string) :
  PyStr.all_chars p s = true -> PyStr.all_chars p (PyStr.take n s) = true.
Proof.
  revert s. induction n as [|n IH]; intros s Hs; [reflexivity|].
  destruct s as [|c r]; simpl in *; [reflexivity|].
  apply andb_true_iff in Hs as [Hc Hr]. rewrite Hc, IH; auto.
Qed.

(** The hash part of an id: twelve lower-case hexadecimal digits. *)
Lemma hash_hex_shape (text : string) :
  let h := PyStr.take 12 (MD5.hexdigest text) in
  String.length h = 12%nat /\ PyStr.all_chars MD5.is_hex h = true.
Proof.
  split.
  - apply take_length. unfold MD5.hexdigest. rewrite hex_length, digest_length. lia.
  - apply take_all_chars, hex_all_hex, digest_range.
Qed.

End Md5Shape.

Lemma generate_id_prefixed (text prefix : string) :
  prefix <> "" ->
  ScraperUtils.generate_id text prefix
  = prefix +:+ "_" +:+ PyStr.take 12 (MD5.hexdigest text).
Proof.
  intros Hp. unfold ScraperUtils.generate_id.
  destruct prefix; [congruence|reflexivity].
Qed.

Lemma create_movie_document_id
    (title : string) (year : Z) (site url : string) (rating : option PyFloat.float)
    (genres directors cast : list string) (plot reviews : string) (num : option Z) :
  create_movie_document title year site url rating genres directors cast plot reviews num
    !! "id"
  = Some (VStr (ScraperUtils.generate_id
                  (title +:+ "_" +:+ PyStr.of_int year +:+ "_" +:+ site) site)).
Proof. reflexivity. Qed.

(** C5. The id of a document is the site name, an underscore, and the
    first 12 hexadecimal digits of the MD5 hash of ["{title}_{year}_{site}"];
    it depends on no other argument, so equal (title, year, site) give
    equal ids. *)
Theorem document_id_deterministic
    (title : string) (year : Z) (site url url' : string)
    (rating rating' : option PyFloat.float)
    (genres genres' directors directors' cast cast' : list string)
    (plot plot' reviews reviews' : string) (num num' : option Z) :
  site <> "" ->
  let h := PyStr.take 12 (MD5.hexdigest (title +:+ "_" +:+ PyStr.of_int year +:+ "_" +:+ site)) in
  let doc := create_movie_document title year site url rating genres directors cast
                                   plot reviews num in
  let doc' := create_movie_document title year site url' rating' genres' directors' cast'
                                    plot' reviews' num' in
  doc !! "id" = Some (VStr (site +:+ "_" +:+ h)) /\
  String.length h = 12%nat /\
  PyStr.all_chars MD5.is_hex h = true /\
  doc' !! "id" = doc !! "id".
Proof.
  intros Hsite h doc doc'. unfold doc, doc'.
  rewrite !create_movie_document_id, generate_id_prefixed by assumption.
  pose proof (hash_hex_shape (title +:+ "_" +:+ PyStr.of_int year +:+ "_" +:+ site)) as [Hl Hh].
  split; [reflexivity|]. split; [exact Hl|]. split; [exact Hh|reflexivity].
Qed.

Lemma document_id_deterministic_witness :
  create_movie_document "Jaws" 1975 "rogerebert" "u" None [] [] [] "" "" None !! "id"
  = Some (VStr ("rogerebert" +:+ "_" +:+
                PyStr.take 12 (MD5.hexdigest ("Jaws" +:+ "_" +:+ PyStr.of_int 1975 +:+ "_"
                                              +:+ "rogerebert")))).
Proof.
  refine (proj1 (document_id_deterministic "Jaws" 1975 "rogerebert" "u" "v"
                   None None [] [] [] [] [] [] "" "" "" "" None None _)).
  discriminate.
Defined.

Example jaws_id :
  create_movie_document "Jaws" 1975 "rogerebert" "u" None [] [] [] "" "" None !! "id"
  = Some (VStr "rogerebert_2a541f198ad8").
Proof. vm_compute. reflexivity. Qed.

(** The crawler's documents: the site is always ["rogerebert"]. *)
Lemma build_document_id (entry : ListingEntry.t) (details : ReviewDetails.t) :
  let title := opt_str_or_str (ReviewDetails.movie_title details) (ListingEntry.title entry) in
  let year := opt_int_or_int (opt_int_or (ReviewDetails.movie_year details)
                                         (ListingEntry.year entry)) 0 in
  _build_document entry details !! "id"
  = Some (VStr ("rogerebert_" +:+
                PyStr.take 12 (MD5.hexdigest (title +:+ "_" +:+ PyStr.of_int year
                                              +:+ "_rogerebert")))).
Proof. reflexivity. Qed.

Lemma build_document_title (entry : ListingEntry.t) (details : ReviewDetails.t) :
  _build_document entry details !! "title"
  = Some (VStr (opt_str_or_str (ReviewDetails.movie_title details)
                               (ListingEntry.title entry))).
Proof. reflexivity. Qed.

Lemma build_document_year (entry : ListingEntry.t) (details : ReviewDetails.t) :
  _build_document entry details !! "year"
  = Some (VInt (opt_int_or_int (opt_int_or (ReviewDetails.movie_year details)
                                           (ListingEntry.year entry)) 0)).
Proof. reflexivity. Qed.

Lemma build_document_url (entry : ListingEntry.t) (details : ReviewDetails.t) :
  doc_url (_build_document entry details) = Some (ListingEntry.url entry).
Proof. reflexivity. Qed.

(** ** Merging listing and detail data *)

(** C6, as stated, fails: a detail page whose [h1] is empty provides the
    title [""], and the document carries the listing title instead. *)
Lemma empty_detail_title_loses :
  let details := review_of_soup Sample.no_float Sample.empty_heading_page in
  ReviewDetails.movie_title details = Some "" /\
  ListingEntry.title Sample.jaws = "Jaws" /\
  _build_document Sample.jaws details !! "title" = Some (VStr "Jaws") /\
  _build_document Sample.jaws details !! "title" <> Some (VStr "").
Proof. vm_compute. repeat split; discriminate. Qed.

(** C6, amended. The document carries the detail-page title when it is
    present and not empty, and the listing title otherwise; it carries the
    detail-page year when it is present and not zero, otherwise the listing
    year when that is present, and otherwise 0. *)
Theorem build_document_merge (entry : ListingEntry.t) (details : ReviewDetails.t) :
  let doc := _build_document entry details in
  (forall t, ReviewDetails.movie_title details = Some t -> t <> "" ->
             doc !! "title" = Some (VStr t)) /\
  (ReviewDetails.movie_title details = None \/ ReviewDetails.movie_title details = Some "" ->
   doc !! "title" = Some (VStr (ListingEntry.title entry))) /\
  (forall y, ReviewDetails.movie_year details = Some y -> y <> 0 ->
             doc !! "year" = Some (VInt y)) /\
  (ReviewDetails.movie_year details = None \/ ReviewDetails.movie_year details = Some 0 ->
   doc !! "year" = Some (VInt (match ListingEntry.year entry with
                               | Some y => y
                               | None => 0
                               end))).
Proof.
  intros doc. unfold doc. rewrite build_document_title, build_document_year.
  repeat split.
  - intros t Ht Hne. rewrite Ht. destruct t; [congruence|reflexivity].
  - intros [Ht|Ht]; rewrite Ht; reflexivity.
  - intros y Hy Hne. rewrite Hy. simpl.
    destruct (Z.eqb_spec y 0) as [->|_]; [congruence|]. simpl.
    destruct (Z.eqb_spec y 0) as [->|_]; [congruence|reflexivity].
  - intros [Hy|Hy]; rewrite Hy; simpl;
      destruct (ListingEntry.year entry) as [y|]; simpl; try reflexivity;
      destruct (Z.eqb_spec y 0) as [->|_]; reflexivity.
Qed.

Lemma build_document_merge_witness :
  _build_document Sample.jaws (Sample.details (Some "Jaws (1975)") (Some 1976) None)
    !! "title" = Some (VStr "Jaws (1975)") /\
  _build_document Sample.jaws (Sample.details (Some "") None None)
    !! "title" = Some (VStr "Jaws") /\
  _build_document Sample.jaws (Sample.details (Some "Jaws (1975)") (Some 1976) None)
    !! "year" = Some (VInt 1976) /\
  _build_document Sample.jaws (Sample.details (Some "") None None)
    !! "year" = Some (VInt 1975).
Proof.
  split; [|split; [|split]].
  - apply (proj1 (build_document_merge Sample.jaws
                    (Sample.details (Some "Jaws (1975)") (Some 1976) None)) "Jaws (1975)");
      [reflexivity|discriminate].
  - apply (proj1 (proj2 (build_document_merge Sample.jaws
                           (Sample.details (Some "") None None)))).
    right. reflexivity.
  - apply (proj1 (proj2 (proj2 (build_document_merge Sample.jaws
                    (Sample.details (Some "Jaws (1975)") (Some 1976) None)))) 1976);
      [reflexivity|discriminate].
  - apply (proj2 (proj2 (proj2 (build_document_merge Sample.jaws
                                  (Sample.details (Some "") None None))))).
    left. reflexivity.
Defined.

(** C10. When neither the detail page nor the listing entry yields a year,
    the document's [year] is the integer 0 and its id hashes
    ["{title}_0_rogerebert"]; two such documents with the same title have
    the same id. *)
Theorem yearless_document_id
    (entry entry' : ListingEntry.t) (details details' : ReviewDetails.t) :
  ReviewDetails.movie_year details = None -> ListingEntry.year entry = None ->
  ReviewDetails.movie_year details' = None -> ListingEntry.year entry' = None ->
  let doc := _build_document entry details in
  let doc' := _build_document entry' details' in
  doc !! "year" = Some (VInt 0) /\
  (forall title, doc !! "title" = Some (VStr title) ->
     doc !! "id" = Some (VStr ("rogerebert_" +:+
                               PyStr.take 12 (MD5.hexdigest (title +:+ "_0_rogerebert"))))) /\
  (doc' !! "title" = doc !! "title" -> doc' !! "id" = doc !! "id").
Proof.
  intros Hd He Hd' He' doc doc'. unfold doc, doc'.
  rewrite !build_document_year, !build_document_title, !build_document_id.
  rewrite Hd, He, Hd', He'. simpl.
  repeat split.
  - intros title [= <-]. reflexivity.
  - intros [= ->]. reflexivity.
Qed.

Lemma yearless_document_id_witness :
  let entry := ListingEntry.mk "Untitled Review" "https://www.rogerebert.com/reviews/a-b-c"
                               None None "" in
  let entry' := ListingEntry.mk "Untitled Review" "https://www.rogerebert.com/reviews/d-e-f"
                                None None "Another page." in
  let doc := _build_document entry (Sample.details None None None) in
  let doc' := _build_document entry' (Sample.details (Some "") None None) in
  doc !! "year" = Some (VInt 0) /\
  doc !! "id" = Some (VStr "rogerebert_b01c039ad558") /\
  doc' !! "id" = doc !! "id".
Proof.
  intros entry entry' doc doc'.
  destruct (yearless_document_id entry entry' (Sample.details None None None)
              (Sample.details (Some "") None None)
              eq_refl eq_refl eq_refl eq_refl) as (Hy & Hid & Hsame).
  split; [exact Hy|]. split.
  - exact (eq_trans (Hid "Untitled Review" eq_refl) eq_refl).
  - apply Hsame. reflexivity.
Defined.

(** ** Review body *)

Section ReviewBody.







End ReviewBody.




Example review_body_two_paragraphs :
  let p1 := {| attrs := ∅; classes := []; strings := ["  Great "; "film.  "] |} in
  let p2 := {| attrs := ∅; classes := []; strings := ["   "] |} in
  let p3 := Sample.text_tag "See it." in
  ReviewDetails.review_text
    (review_of_soup Sample.no_float
       (Sample.page [] None None None None (Some {| sel_p := [p1; p2; p3] |})))
  = "Great film. See it.".
Proof. vm_compute. reflexivity. Qed.

(** ** Pagination discovery *)

(** C7 fails on the code: the filter keeps every URL that begins with the
    text [BASE_URL], and a URL of another host can begin with it. Here
    [urljoin] is any function that returns this absolute link as it is. *)
Theorem next_listing_url_of_foreign_origin
    (urljoin : string -> string -> string) (current_url : string) :
  urljoin current_url Sample.foreign_href = Sample.foreign_href ->
  _extract_next_listing_urls urljoin Sample.foreign_next_page current_url
  = [Sample.foreign_href] /\
  url_origin Sample.foreign_href = "https://www.rogerebert.com.evil.example" /\
  url_origin BASE_URL = "https://www.rogerebert.com" /\
  url_origin Sample.foreign_href <> url_origin BASE_URL.
Proof.
  intros Hjoin. split; [|vm_compute; repeat split; discriminate].
  unfold _extract_next_listing_urls, add_href.
  replace (truthy_attr (sel_link_rel_next Sample.foreign_next_page) "href")
    with (Some Sample.foreign_href) by (vm_compute; reflexivity).
  replace (truthy_attr (tag_or (sel_a_rel_next Sample.foreign_next_page)
                               (sel_pagination_next Sample.foreign_next_page)) "href")
    with (@None string) by reflexivity.
  replace (truthy_attr (find_more_reviews Sample.foreign_next_page) "href")
    with (@None string) by reflexivity.
  rewrite Hjoin. vm_compute. reflexivity.
Qed.

(** What the filter does ensure: every returned URL begins with the text
    of [BASE_URL]. *)
Lemma next_listing_urls_prefix
    (urljoin : string -> string -> string) (soup : Soup) (current_url u : string) :
  u ∈ _extract_next_listing_urls urljoin soup current_url ->
  PyStr.startswith u BASE_URL = true.
Proof.
  unfold _extract_next_listing_urls. intros Hu.
  apply list_elem_of_filter in Hu. tauto.
Qed.

Lemma next_listing_url_of_foreign_origin_witness :
  _extract_next_listing_urls Sample.urljoin_absolute Sample.foreign_next_page
    "https://www.rogerebert.com/reviews"
  = [Sample.foreign_href].
Proof.
  apply (next_listing_url_of_foreign_origin Sample.urljoin_absolute
           "https://www.rogerebert.com/reviews").
  reflexivity.
Defined.

(** ** The crawl loop *)

Section CrawlInvariants.

Context (py_float : string -> option PyFloat.float)
        (urljoin : string -> string -> string)
        (urlparse_path : string -> string)
        {World : Type}
        (http_get : World -> string -> World * option Soup)
        (output_file : string)
        (write_file : World -> string -> list Document -> option Exception).

Local Abbreviation save_ := (save (World:=World) output_file write_file).
Local Abbreviation accept_ := (accept (World:=World) output_file write_file).
Local Abbreviation iteration_ :=
  (iteration py_float urljoin urlparse_path World http_get output_file write_file).
Local Abbreviation step_ :=
  (step py_float urljoin urlparse_path World http_get output_file write_file).
Local Abbreviation run_ :=
  (run py_float urljoin urlparse_path World http_get output_file write_file).
Local Abbreviation crawl_ :=
  (crawl py_float urljoin urlparse_path World http_get output_file write_file).
Local Abbreviation main_ :=
  (main py_float urljoin urlparse_path World http_get output_file write_file).

Lemma succ_mod_10 (c : nat) :
  (S c mod 10 <> 0 -> S c mod 10 = S (c mod 10))%nat.
Proof.
  intros H.
  pose proof (Nat.div_mod_eq c 10) as Hc.
  pose proof (Nat.mod_upper_bound c 10 ltac:(lia)) as Hlt.
  destruct (Nat.eq_dec (c mod 10)%nat 9%nat) as [H9|H9].
  - exfalso. apply H.
    symmetry. apply (Nat.mod_unique (S c) 10 (S (c / 10)%nat) 0); lia.
  - symmetry. apply (Nat.mod_unique (S c) 10 (c / 10)%nat (S (c mod 10)%nat)); lia.
Qed.

(** What [save] changes when it returns, and when it raises. *)
Lemma save_effect (s s' : Session World) :
  save_ s = Returned s' ->
  (documents s <> [] /\
   OsPath.dirname output_file <> "" /\
   documents s' = documents s /\
   seen_review_urls s' = seen_review_urls s /\
   collected s' = collected s /\
   listing_queue s' = listing_queue s /\
   pending s' = pending s /\
   disk s' = Some (JsonDocs (documents s)) /\
   trace s' = trace s ++ [WriteFile (documents s)])
  \/ (documents s = [] /\ s' = s).
Proof.
  unfold save. destruct (documents s) as [|d ds] eqn:Hd.
  - intros [= <-]. right. auto.
  - destruct (OsPath.dirname output_file) as [|c r] eqn:Hdir; [discriminate|].
    cbn [PyStr.nonempty]. destruct (write_file _ _ _); [discriminate|].
    intros [= <-]. left. cbn. repeat split; auto; discriminate.
Qed.

Lemma save_raises (s : Session World) (e : Exception) :
  save_ s = Raises e <->
  documents s <> [] /\
  ((OsPath.dirname output_file = "" /\ e = FileNotFoundError) \/
   (OsPath.dirname output_file <> "" /\
    write_file (world s) output_file (documents s) = Some e)).
Proof.
  unfold save. destruct (documents s) as [|d ds].
  - split; [discriminate|]. intros [H _]. now destruct H.
  - destruct (OsPath.dirname output_file) as [|c r]; cbn [PyStr.nonempty].
    + split.
      * intros [= <-]. split; [discriminate|]. left. auto.
      * intros [_ [[_ ->]|[H _]]]; [reflexivity|now destruct H].
    + destruct (write_file _ _ _) as [e'|].
      * split.
        -- intros [= <-]. split; [discriminate|]. right. split; [discriminate|reflexivity].
        -- intros [_ [[H _]|[_ H]]]; [discriminate H|]. now injection H as ->.
      * split; [discriminate|]. intros [_ [[H _]|[_ H]]]; discriminate H.
Qed.

Lemma save_returns (s : Session World) :
  OsPath.dirname output_file <> "" ->
  (forall w docs, write_file w output_file docs = None) ->
  exists s', save_ s = Returned s'.
Proof.
  intros Hdir Hfs. destruct (save_ s) as [s'|e] eqn:Hsave; [eauto|].
  apply save_raises in Hsave as [_ [[Hsave _]|[_ Hsave]]]; [contradiction|].
  rewrite Hfs in Hsave. discriminate Hsave.
Qed.

(** What accepting a document changes. *)
Lemma accept_effect (entry : ListingEntry.t) (d : ReviewDetails.t) (s1 s' : Session World) :
  accept_ entry d s1 = Returned s' ->
  documents s' = documents s1 ++ [_build_document entry d] /\
  seen_review_urls s' = {[ListingEntry.url entry]} ∪ seen_review_urls s1 /\
  collected s' = S (collected s1) /\
  (((S (collected s1) mod 10)%nat = 0%nat /\
    disk s' = Some (JsonDocs (documents s')) /\
    trace s' = trace s1 ++ [WriteFile (documents s')])
   \/
   ((S (collected s1) mod 10)%nat <> 0%nat /\
    disk s' = disk s1 /\ trace s' = trace s1)).
Proof.
  unfold accept. cbn [collected].
  destruct (Nat.eqb_spec (S (collected s1) mod 10) 0) as [H0|H0].
  - intros Hsave. apply save_effect in Hsave as [Hsave|[Hnil _]].
    + destruct Hsave as (_ & _ & Hd & Hs & Hc & _ & _ & Hk & Ht).
      cbn [documents seen_review_urls collected trace] in *.
      rewrite Hd, Hs, Hc, Hk, Ht. repeat split; auto.
    + cbn [documents] in Hnil. destruct (documents s1); discriminate.
  - intros [= <-]. cbn. repeat split; auto.
Qed.

(** [accept] leaves the queue and the pending entries alone. *)
Lemma accept_frame (entry : ListingEntry.t) (d : ReviewDetails.t) (s1 s' : Session World) :
  accept_ entry d s1 = Returned s' ->
  listing_queue s' = listing_queue s1 /\ pending s' = pending s1.
Proof.
  unfold accept. cbn [collected].
  destruct (Nat.eqb (S (collected s1) mod 10) 0).
  - intros Hsave. apply save_effect in Hsave as [Hsave|[_ ->]]; [|auto].
    destruct Hsave as (_ & _ & _ & _ & _ & Hq & Hp & _). rewrite Hq, Hp. auto.
  - intros [= <-]. auto.
Qed.

(** [accept] raises exactly when it saves and [save] raises. *)
Lemma accept_raises (entry : ListingEntry.t) (d : ReviewDetails.t) (s1 : Session World)
      (e : Exception) :
  accept_ entry d s1 = Raises e <->
  (S (collected s1) mod 10)%nat = 0%nat /\
  ((OsPath.dirname output_file = "" /\ e = FileNotFoundError) \/
   (OsPath.dirname output_file <> "" /\
    write_file (world s1) output_file (documents s1 ++ [_build_document entry d]) = Some e)).
Proof.
  unfold accept. cbn [collected].
  destruct (Nat.eqb_spec (S (collected s1) mod 10) 0) as [H0|H0].
  - rewrite save_raises. cbn [documents world]. split.
    + intros [_ H]. auto.
    + intros [_ H]. split; [|exact H]. destruct (documents s1); discriminate.
  - split; [discriminate|]. intros [H _]. contradiction.
Qed.

Lemma accept_returns (entry : ListingEntry.t) (d : ReviewDetails.t) (s1 : Session World) :
  OsPath.dirname output_file <> "" ->
  (forall w docs, write_file w output_file docs = None) ->
  exists s', accept_ entry d s1 = Returned s'.
Proof.
  intros Hdir Hfs. destruct (accept_ entry d s1) as [s'|e] eqn:Haccept; [eauto|].
  apply accept_raises in Haccept as [_ [[Hnone _]|[_ Hnone]]]; [contradiction|].
  rewrite Hfs in Hnone. discriminate Hnone.
Qed.

(** The kinds of pass through the loops, in the order of the code: a
    listing page parsed, a listing request failed, the limit reached with
    entries pending, an entry with a seen url, a detail request failed, a
    document accepted, [save] raising, the loop over. *)
Lemma iteration_cases (limit : Z) (s : Session World) :
  (exists listing_url queue w' soup,
      pending s = [] /\ listing_queue s = listing_url :: queue /\
      Z.of_nat (collected s) < limit /\
      http_get (world s) listing_url = (w', Some soup) /\
      iteration_ limit s
      = Next (mkSession w' (documents s) (seen_review_urls s) (collected s)
                (enqueue_new (_extract_next_listing_urls urljoin soup listing_url) queue)
                (listing_entries urljoin urlparse_path (sel_review_links soup) [] ∅)
                (disk s) (trace s ++ [GetListing listing_url])))
  \/
  (exists listing_url queue w',
      pending s = [] /\ listing_queue s = listing_url :: queue /\
      Z.of_nat (collected s) < limit /\
      http_get (world s) listing_url = (w', None) /\
      iteration_ limit s
      = Next (mkSession w' (documents s) (seen_review_urls s) (collected s)
                queue [] (disk s) (trace s ++ [GetListing listing_url])))
  \/
  (exists entry rest,
      pending s = entry :: rest /\ limit <= Z.of_nat (collected s) /\
      iteration_ limit s
      = Next (mkSession (world s) (documents s) (seen_review_urls s) (collected s)
                (listing_queue s) [] (disk s) (trace s)))
  \/
  (exists entry rest,
      pending s = entry :: rest /\ Z.of_nat (collected s) < limit /\
      ListingEntry.url entry ∈ seen_review_urls s /\
      iteration_ limit s
      = Next (mkSession (world s) (documents s) (seen_review_urls s) (collected s)
                (listing_queue s) rest (disk s) (trace s)))
  \/
  (exists entry rest w',
      pending s = entry :: rest /\ Z.of_nat (collected s) < limit /\
      (ListingEntry.url entry ∉ seen_review_urls s) /\
      http_get (world s) (ListingEntry.url entry) = (w', None) /\
      iteration_ limit s
      = Next (mkSession w' (documents s) (seen_review_urls s) (collected s)
                (listing_queue s) rest (disk s)
                (trace s ++ [GetDetail (ListingEntry.url entry)])))
  \/
  (exists entry rest w' soup s',
      pending s = entry :: rest /\ Z.of_nat (collected s) < limit /\
      (ListingEntry.url entry ∉ seen_review_urls s) /\
      http_get (world s) (ListingEntry.url entry) = (w', Some soup) /\
      accept_ entry (review_of_soup py_float soup)
        (mkSession w' (documents s) (seen_review_urls s) (collected s)
           (listing_queue s) rest (disk s)
           (trace s ++ [GetDetail (ListingEntry.url entry)])) = Returned s' /\
      iteration_ limit s = Next s')
  \/
  (exists entry rest w' soup e,
      pending s = entry :: rest /\ Z.of_nat (collected s) < limit /\
      (ListingEntry.url entry ∉ seen_review_urls s) /\
      http_get (world s) (ListingEntry.url entry) = (w', Some soup) /\
      accept_ entry (review_of_soup py_float soup)
        (mkSession w' (documents s) (seen_review_urls s) (collected s)
           (listing_queue s) rest (disk s)
           (trace s ++ [GetDetail (ListingEntry.url entry)])) = Raises e /\
      iteration_ limit s = Raised e)
  \/
  (pending s = [] /\ (listing_queue s = [] \/ limit <= Z.of_nat (collected s)) /\
   iteration_ limit s = Done).
Proof.
  unfold iteration, _fetch_review, _get_soup, _parse_listing.
  destruct (pending s) as [|entry rest] eqn:Hpending.
  - destruct (listing_queue s) as [|listing_url queue] eqn:Hqueue.
    { do 7 right. auto 10. }
    destruct (Z.ltb_spec (Z.of_nat (collected s)) limit) as [Hlimit|Hlimit].
    2: { do 7 right. auto 10. }
    destruct (http_get (world s) listing_url) as [w' [soup|]] eqn:Hget.
    + left. exists listing_url, queue, w', soup. auto 10.
    + right. left. exists listing_url, queue, w'. auto 10.
  - destruct (Z.leb_spec limit (Z.of_nat (collected s))) as [Hlimit|Hlimit].
    { do 2 right. left. exists entry, rest. auto 10. }
    destruct (bool_decide (ListingEntry.url entry ∈ seen_review_urls s)) eqn:Hseen.
    { apply bool_decide_eq_true in Hseen.
      do 3 right. left. exists entry, rest. auto 10. }
    apply bool_decide_eq_false in Hseen.
    destruct (http_get (world s) (ListingEntry.url entry)) as [w' [soup|]] eqn:Hget;
      cbn [option_map].
    + destruct (accept _ _ _ _ _) as [s'|e] eqn:Haccept.
      * do 5 right. left. exists entry, rest, w', soup, s'. auto 10.
      * do 6 right. left. exists entry, rest, w', soup, e. auto 10.
    + do 4 right. left. exists entry, rest, w'. auto 10.
Qed.

(** The two kinds of step: one that leaves documents, seen set, counter
    and file alone, and one that accepts a document from a url not yet
    seen, after requesting its detail page. *)
Lemma step_cases (limit : Z) (s s' : Session World) :
  step_ limit s = Some s' ->
  (exists evs,
      documents s' = documents s /\ seen_review_urls s' = seen_review_urls s /\
      collected s' = collected s /\ disk s' = disk s /\
      trace s' = trace s ++ evs /\
      (forall u, GetDetail u ∈ evs -> u ∉ seen_review_urls s) /\
      (forall docs, WriteFile docs ∉ evs))
  \/
  (exists entry d s1,
      (ListingEntry.url entry ∉ seen_review_urls s) /\
      documents s1 = documents s /\ seen_review_urls s1 = seen_review_urls s /\
      collected s1 = collected s /\ disk s1 = disk s /\
      trace s1 = trace s ++ [GetDetail (ListingEntry.url entry)] /\
      accept_ entry d s1 = Returned s').
Proof.
  unfold step.
  destruct (iteration_cases limit s)
    as [(listing_url & queue & w' & soup & _ & _ & _ & _ & ->)
       |[(listing_url & queue & w' & _ & _ & _ & _ & ->)
        |[(entry & rest & _ & _ & ->)
         |[(entry & rest & _ & _ & _ & ->)
          |[(entry & rest & w' & _ & _ & Hseen & _ & ->)
           |[(entry & rest & w' & soup & s1' & _ & _ & Hseen & _ & Haccept & ->)
            |[(entry & rest & w' & soup & e & _ & _ & _ & _ & _ & ->)
             |(_ & _ & ->)]]]]]]].
  - intros [= <-]. left. exists [GetListing listing_url]. cbn.
    repeat split; auto; intros ? Hin; apply list_elem_of_singleton in Hin; discriminate.
  - intros [= <-]. left. exists [GetListing listing_url]. cbn.
    repeat split; auto; intros ? Hin; apply list_elem_of_singleton in Hin; discriminate.
  - intros [= <-]. left. exists []. cbn. rewrite app_nil_r.
    repeat split; auto; intros ? Hin; inversion Hin.
  - intros [= <-]. left. exists []. cbn. rewrite app_nil_r.
    repeat split; auto; intros ? Hin; inversion Hin.
  - intros [= <-]. left. exists [GetDetail (ListingEntry.url entry)]. cbn.
    repeat split; auto; intros ? Hin; apply list_elem_of_singleton in Hin.
    + injection Hin as ->. exact Hseen.
    + discriminate.
  - intros [= <-]. right.
    exists entry, (review_of_soup py_float soup),
      (mkSession w' (documents s) (seen_review_urls s) (collected s)
                 (listing_queue s) rest (disk s)
                 (trace s ++ [GetDetail (ListingEntry.url entry)])).
    cbn. repeat split; [exact Hseen|..]; auto.
  - discriminate.
  - discriminate.
Qed.

(** *** Deduplication by url *)

Lemma seed_seen_spec (docs : list Document) (u : string) :
  u ∈ seed_seen docs <-> exists d, d ∈ docs /\ doc_url d = Some u.
Proof.
  unfold seed_seen.
  assert (forall acc : gset string,
             u ∈ fold_left
                   (fun seen doc =>
                      match doc_url doc with Some v => {[v]} ∪ seen | None => seen end)
                   docs acc
             <-> u ∈ acc \/ exists d, d ∈ docs /\ doc_url d = Some u) as Hgen.
  { induction docs as [|d docs IH]; intros acc; cbn [fold_left].
    - split; [auto|]. intros [H|(d & Hd & _)]; [exact H|inversion Hd].
    - rewrite IH. split.
      + intros [H|(d' & Hd' & Hu)].
        * destruct (doc_url d) as [v|] eqn:Hv.
          -- apply elem_of_union in H as [H|H]; [|auto].
             apply elem_of_singleton in H as ->.
             right. exists d. split; [left|exact Hv].
          -- auto.
        * right. exists d'. split; [right; exact Hd'|exact Hu].
      + intros [H|(d' & Hd' & Hu)].
        * left. destruct (doc_url d); [set_solver|exact H].
        * apply elem_of_cons in Hd' as [->|Hd'].
          -- left. rewrite Hu. set_solver.
          -- right. exists d'. auto. }
  rewrite Hgen. split; [|auto]. intros [H|H]; [set_solver|exact H].
Qed.

Lemma crawl_init_seen (w : World) (file : option File) (start_page : Z) (u : string) :
  let s0 := crawl_init w file start_page in
  u ∈ seen_review_urls s0 <-> exists d, d ∈ documents s0 /\ doc_url d = Some u.
Proof.
  unfold crawl_init, load_existing.
  destruct file as [[docs| |]|]; cbn.
  - apply seed_seen_spec.
  - split; [set_solver|]. intros (d & Hd & _). inversion Hd.
  - split; [set_solver|]. intros (d & Hd & _). inversion Hd.
  - split; [set_solver|]. intros (d & Hd & _). inversion Hd.
Qed.

Lemma fresh_urls_init (s0 : Session World) :
  (forall u, GetDetail u ∉ trace s0) -> fresh_urls s0 s0.
Proof.
  intros Htr. exists [], []. rewrite app_nil_r. cbn.
  repeat split; [constructor|set_solver|set_solver|].
  intros u Hu. destruct (Htr u Hu).
Qed.

Lemma fresh_urls_step (limit : Z) (s0 s s' : Session World) :
  fresh_urls s0 s -> step_ limit s = Some s' -> fresh_urls s0 s'.
Proof.
  intros (new & urls & Hdocs & Hurls & Hnd & Hseen & Hfresh & Htr) Hstep.
  apply step_cases in Hstep
    as [(evs & Hd & Hs & _ & _ & Ht & Hev & _)
       |(entry & d & s1 & Hnew & Hd & Hs & _ & _ & Ht & Haccept)].
  - exists new, urls. rewrite Hd, Hs, Ht.
    repeat split; auto.
    intros u Hu. apply elem_of_app in Hu as [Hu|Hu]; [auto|].
    apply Hev in Hu. rewrite Hseen in Hu. set_solver.
  - destruct (accept_effect entry d s1 s' Haccept) as (Hd' & Hs' & _ & Hsave).
    exists (new ++ [_build_document entry d]), (urls ++ [ListingEntry.url entry]).
    rewrite Hd', Hs', Hd, Hs, Hdocs, Hseen. rewrite Hseen in Hnew.
    split; [now rewrite app_assoc|].
    split; [rewrite !map_app, Hurls; cbn; now rewrite build_document_url|].
    split.
    { apply NoDup_app. split; [exact Hnd|]. split; [|apply NoDup_singleton].
      intros u Hu Hu'. apply list_elem_of_singleton in Hu' as ->.
      apply Hnew. set_solver. }
    split; [rewrite list_to_set_app_L; set_solver|].
    split.
    { intros u Hu. apply elem_of_app in Hu as [Hu|Hu]; [auto|].
      apply list_elem_of_singleton in Hu as ->. set_solver. }
    intros u Hu.
    assert (GetDetail u ∈ trace s1) as Hu1.
    { destruct Hsave as [(_ & _ & Ht')|(_ & _ & Ht')]; rewrite Ht' in Hu; [|exact Hu].
      apply elem_of_app in Hu as [Hu|Hu]; [exact Hu|].
      apply list_elem_of_singleton in Hu. discriminate. }
    rewrite Ht in Hu1. apply elem_of_app in Hu1 as [Hu1|Hu1]; [auto|].
    apply list_elem_of_singleton in Hu1. injection Hu1 as ->. set_solver.
Qed.

Lemma fresh_urls_run (n : nat) (limit : Z) (s0 s : Session World) :
  fresh_urls s0 s -> fresh_urls s0 (run_ n limit s).
Proof.
  revert s. induction n as [|n IH]; intros s Hs; cbn [run]; [exact Hs|].
  destruct (step_ limit s) as [s'|] eqn:Hstep; [|exact Hs].
  apply IH. eapply fresh_urls_step; eauto.
Qed.

(** A pending entry whose url is seen is dropped without a request. *)
Lemma step_skips_seen (limit : Z) (s : Session World)
      (entry : ListingEntry.t) (rest : list ListingEntry.t) :
  pending s = entry :: rest ->
  Z.of_nat (collected s) < limit ->
  ListingEntry.url entry ∈ seen_review_urls s ->
  step_ limit s
  = Some (mkSession (world s) (documents s) (seen_review_urls s) (collected s)
                    (listing_queue s) rest (disk s) (trace s)).
Proof.
  intros Hp Hc Hseen. unfold step, iteration. rewrite Hp.
  destruct (Z.leb_spec limit (Z.of_nat (collected s))); [lia|].
  rewrite bool_decide_eq_true_2 by exact Hseen. reflexivity.
Qed.

(** C1. In every state of a crawl session: the seen set at the start
    holds exactly the urls of the loaded documents; the documents
    appended since carry pairwise distinct urls, none of which was in the
    seen set at the start; no detail page was requested for a url seen at
    the start; and a pending entry whose url is in the seen set is
    dropped with no request and no document built. *)
Theorem crawl_appends_only_unseen_urls
    (w : World) (file : option File) (limit start_page : Z) (n : nat) :
  let s0 := crawl_init w file start_page in
  let s := run_ n limit s0 in
  (forall u, u ∈ seen_review_urls s0 <-> exists d, d ∈ documents s0 /\ doc_url d = Some u) /\
  (exists new urls,
      documents s = documents s0 ++ new /\
      map doc_url new = map Some urls /\
      NoDup urls /\
      (forall u, u ∈ urls -> u ∉ seen_review_urls s0)) /\
  (forall u, GetDetail u ∈ trace s -> u ∉ seen_review_urls s0) /\
  (forall st entry rest,
      pending st = entry :: rest ->
      Z.of_nat (collected st) < limit ->
      ListingEntry.url entry ∈ seen_review_urls st ->
      step_ limit st
      = Some (mkSession (world st) (documents st) (seen_review_urls st) (collected st)
                        (listing_queue st) rest (disk st) (trace st))).
Proof.
  intros s0 s.
  split; [intros u; apply crawl_init_seen|].
  assert (fresh_urls s0 s) as (new & urls & Hdocs & Hurls & Hnd & _ & Hfresh & Htr).
  { apply fresh_urls_run, fresh_urls_init.
    intros u Hu. unfold s0, crawl_init in Hu.
    destruct (load_existing file) as [docs seen]. cbn in Hu. inversion Hu. }
  split; [exists new, urls; auto|].
  split; [exact Htr|].
  intros st entry rest. apply step_skips_seen.
Qed.

(** *** Checkpoints *)

Lemma checkpointed_init (w : World) (file : option File) (start_page : Z) :
  checkpointed (crawl_init w file start_page).
Proof.
  exists []. unfold crawl_init, load_existing, persisted.
  destruct file as [[docs| |]|]; cbn; rewrite ?app_nil_r; auto.
Qed.

Lemma checkpointed_step (limit : Z) (s s' : Session World) :
  checkpointed s -> step_ limit s = Some s' -> checkpointed s'.
Proof.
  intros (tail & Hdocs & Hlen) Hstep. unfold checkpointed, persisted in *.
  apply step_cases in Hstep
    as [(evs & Hd & _ & Hc & Hk & _)
       |(entry & d & s1 & _ & Hd & _ & Hc & Hk & _ & Haccept)].
  - exists tail. rewrite Hd, Hc, Hk. auto.
  - destruct (accept_effect entry d s1 s' Haccept) as (Hd' & _ & Hc' & Hsave).
    destruct Hsave as [(H0 & Hdisk & _)|(H0 & Hdisk & _)].
    + exists []. rewrite Hdisk, Hc', H0, app_nil_r. auto.
    + exists (tail ++ [_build_document entry d]).
      rewrite Hc in H0.
      rewrite Hdisk, Hk, Hd', Hd, Hdocs, Hc', length_app, Hlen, Hc, succ_mod_10 by exact H0.
      split; [now rewrite app_assoc|cbn; lia].
Qed.

Lemma checkpointed_run (n : nat) (limit : Z) (s : Session World) :
  checkpointed s -> checkpointed (run_ n limit s).
Proof.
  revert s. induction n as [|n IH]; intros s Hs; cbn [run]; [exact Hs|].
  destruct (step_ limit s) as [s'|] eqn:Hstep; [|exact Hs].
  apply IH. eapply checkpointed_step; eauto.
Qed.

(** C9, amended. For an output path with a directory part and a file
    system that accepts the writes: (a) [save] returns, it does not
    raise; (b) a step that brings the count of accepted documents to a
    multiple of 10 writes the full document list to the output file; (c)
    in every state of the crawl, at the head of a pass through its loops,
    all documents but the last [collected mod 10], fewer than 10, are in
    the output file; (d) when the crawl loop has ended, [main] saves and
    returns: if the document list is not empty it is written once more in
    full, if it is empty nothing is written. Either way the file then
    holds every document. *)
Theorem checkpoint_every_tenth_and_at_exit
    (w : World) (file : option File) (limit start_page : Z) (n fuel : nat) :
  OsPath.dirname output_file <> "" ->
  (forall w docs, write_file w output_file docs = None) ->
  let s := run_ n limit (crawl_init w file start_page) in
  (forall st, exists st', save_ st = Returned st') /\
  (forall st st',
      step_ limit st = Some st' ->
      collected st' = S (collected st) ->
      (collected st' mod 10)%nat = 0%nat ->
      disk st' = Some (JsonDocs (documents st')) /\
      exists tr, trace st' = tr ++ [WriteFile (documents st')]) /\
  (exists tail,
      documents s = persisted s ++ tail /\
      length tail = (collected s mod 10)%nat /\
      (length tail < 10)%nat) /\
  (forall sf,
      crawl_ fuel limit start_page w file = Some sf ->
      exists sf',
        main_ fuel limit start_page w file = Some sf' /\
        documents sf' = documents sf /\
        persisted sf' = documents sf /\
        (documents sf <> [] ->
         disk sf' = Some (JsonDocs (documents sf)) /\
         trace sf' = trace sf ++ [WriteFile (documents sf)]) /\
        (documents sf = [] -> sf' = sf)).
Proof.
  intros Hdir Hfs s. split; [|split; [|split]].
  - intros st. now apply save_returns.
  - intros st st' Hstep Hcount Hmod.
    apply step_cases in Hstep
      as [(evs & _ & _ & Hc & _)|(entry & d & s1 & _ & _ & _ & Hc & _ & _ & Haccept)].
    + lia.
    + destruct (accept_effect entry d s1 st' Haccept) as (_ & _ & Hc' & Hsave).
      destruct Hsave as [(_ & Hdisk & Htr)|(H0 & _)].
      * split; [exact Hdisk|]. eexists. exact Htr.
      * rewrite Hc' in Hmod. contradiction.
  - destruct (checkpointed_run n limit _ (checkpointed_init w file start_page))
      as (tail & Hdocs & Hlen).
    exists tail. fold s in Hdocs, Hlen. repeat split; [exact Hdocs|exact Hlen|].
    rewrite Hlen. apply Nat.mod_upper_bound. lia.
  - intros sf Hcrawl.
    assert (checkpointed sf) as (tail & Hdocs & _).
    { unfold crawl in Hcrawl. destruct (loads file); [|discriminate].
      destruct (iteration_ _ _); try discriminate.
      injection Hcrawl as <-. apply checkpointed_run, checkpointed_init. }
    destruct (save_returns sf Hdir Hfs) as [sf' Hsave].
    exists sf'. split; [unfold main; now rewrite Hcrawl, Hsave|].
    destruct (save_effect sf sf' Hsave)
      as [(Hne & _ & Hd & _ & _ & _ & _ & Hdisk & Htr)|(Hnil & ->)].
    + split; [exact Hd|].
      split; [unfold persisted; now rewrite Hdisk|].
      split; [intros _; split; assumption|].
      intros Hnil. contradiction.
    + split; [reflexivity|].
      split; [|split; [congruence|reflexivity]].
      rewrite Hnil in Hdocs. symmetry in Hdocs.
      apply app_eq_nil in Hdocs as [-> _]. now rewrite Hnil.
Qed.

(** *** An output path without directory part *)

Lemma accept_raises_without_directory
      (entry : ListingEntry.t) (d : ReviewDetails.t) (s1 : Session World) :
  OsPath.dirname output_file = "" ->
  (S (collected s1) mod 10)%nat = 0%nat ->
  accept_ entry d s1 = Raises FileNotFoundError.
Proof. intros Hdir Hmod. apply accept_raises. auto. Qed.

(** Without a directory part in the output path, [save] raises whenever
    there are documents. So in every state of the crawl, at the head of a
    pass through its loops, nothing has been written, the file is as it
    was, and fewer than 10 documents have been accepted; the pass that
    accepts the tenth raises [FileNotFoundError]; and [main] returns only
    when there is no document at all. *)
Theorem output_path_without_directory_is_never_written
    (w : World) (file : option File) (limit start_page : Z) (n fuel : nat) :
  OsPath.dirname output_file = "" ->
  let s := run_ n limit (crawl_init w file start_page) in
  disk s = file /\
  (forall docs, WriteFile docs ∉ trace s) /\
  (collected s < 10)%nat /\
  (forall st entry rest w' soup,
      pending st = entry :: rest ->
      Z.of_nat (collected st) < limit ->
      (ListingEntry.url entry ∉ seen_review_urls st) ->
      http_get (world st) (ListingEntry.url entry) = (w', Some soup) ->
      (S (collected st) mod 10)%nat = 0%nat ->
      iteration_ limit st = Raised FileNotFoundError) /\
  (forall sf,
      main_ fuel limit start_page w file = Some sf ->
      documents sf = [] /\ disk sf = file /\ forall docs, WriteFile docs ∉ trace sf).
Proof.
  intros Hdir s.
  assert (forall k st,
             (disk st = file /\ (forall docs, WriteFile docs ∉ trace st) /\
              (collected st < 10)%nat) ->
             (disk (run_ k limit st) = file /\
              (forall docs, WriteFile docs ∉ trace (run_ k limit st)) /\
              (collected (run_ k limit st) < 10)%nat)) as Hrun.
  { induction k as [|k IH]; intros st Hst; cbn [run]; [exact Hst|].
    destruct (step_ limit st) as [st'|] eqn:Hstep; [|exact Hst].
    apply IH. destruct Hst as (Hdisk & Htrace & Hcount).
    apply step_cases in Hstep
      as [(evs & _ & _ & Hc & Hk & Ht & _ & Hev)
         |(entry & d & s1 & _ & _ & _ & Hc & Hk & Ht & Haccept)].
    - rewrite Hk, Ht, Hc. split; [exact Hdisk|]. split; [|exact Hcount].
      intros docs Hin. apply elem_of_app in Hin as [Hin|Hin];
        [exact (Htrace docs Hin)|exact (Hev docs Hin)].
    - destruct (accept_effect entry d s1 st' Haccept) as (_ & _ & Hc' & Hsave).
      assert ((S (collected s1) mod 10)%nat <> 0%nat) as Hmod.
      { intros Hmod.
        rewrite (accept_raises_without_directory entry d s1 Hdir Hmod) in Haccept.
        discriminate Haccept. }
      destruct Hsave as [(H0 & _)|(_ & Hdisk' & Ht')]; [contradiction|].
      rewrite Hdisk', Ht', Hk, Ht, Hc'. split; [exact Hdisk|]. split.
      + intros docs Hin. apply elem_of_app in Hin as [Hin|Hin];
          [exact (Htrace docs Hin)|].
        apply list_elem_of_singleton in Hin. discriminate Hin.
      + rewrite Hc in *.
        destruct (Nat.eq_dec (S (collected st)) 10%nat) as [H10|H10]; [|lia].
        rewrite H10 in Hmod. now destruct Hmod. }
  assert (disk (crawl_init w file start_page) = file /\
          (forall docs, WriteFile docs ∉ trace (crawl_init w file start_page)) /\
          (collected (crawl_init w file start_page) < 10)%nat) as Hinit.
  { unfold crawl_init. destruct (load_existing file). cbn.
    split; [reflexivity|]. split; [|lia]. intros docs Hin. inversion Hin. }
  destruct (Hrun n _ Hinit) as (Hdisk & Htrace & Hcount).
  split; [exact Hdisk|]. split; [exact Htrace|]. split; [exact Hcount|]. split.
  - intros st entry rest w' soup Hpending Hlimit Hseen Hget Hmod.
    unfold iteration, _fetch_review, _get_soup.
    rewrite Hpending.
    destruct (Z.leb_spec limit (Z.of_nat (collected st))) as [Hl|_]; [lia|].
    rewrite bool_decide_eq_false_2 by exact Hseen.
    rewrite Hget. cbn [option_map].
    rewrite accept_raises_without_directory; [reflexivity|exact Hdir|exact Hmod].
  - intros sf Hmain. unfold main, crawl in Hmain.
    destruct (loads file); [|discriminate].
    destruct (iteration_ limit (run_ fuel limit (crawl_init w file start_page)));
      try discriminate.
    destruct (Hrun fuel _ Hinit) as (Hdisk' & Htrace' & _).
    destruct (save_ (run_ fuel limit (crawl_init w file start_page)))
      as [sf'|e] eqn:Hsave; [|discriminate].
    injection Hmain as ->.
    apply save_effect in Hsave as [(_ & Hne & _)|(Hnil & ->)]; [contradiction|].
    auto.
Qed.

End CrawlInvariants.

(** A resumed session: the output file already holds a document for the
    first review of the two-page site, and no detail request goes to its
    url. *)
Lemma crawl_appends_only_unseen_urls_witness :
  let url := Sample.review_url "jaws-movie-review-1975" in
  let file := Some (JsonDocs [ {[ "url" := VStr url ]} ]) in
  let s := run Sample.no_float Sample.urljoin_absolute Sample.url_path unit
               Sample.two_page_site
               Sample.output_file Sample.write_ok 20 10 (crawl_init tt file 1) in
  GetDetail url ∉ trace s.
Proof.
  intros url file s Hin.
  destruct (crawl_appends_only_unseen_urls
              Sample.no_float Sample.urljoin_absolute Sample.url_path Sample.two_page_site
                Sample.output_file Sample.write_ok
              tt file 10 1 20) as (Hseen & _ & Htr & _).
  apply (Htr url Hin). apply Hseen.
  exists {[ "url" := VStr url ]}. split; [left|reflexivity].
Defined.

Example resumed_crawl_adds_the_other_four :
  let url := Sample.review_url "jaws-movie-review-1975" in
  let file := Some (JsonDocs [ {[ "url" := VStr url ]} ]) in
  option_map (fun s => (map doc_url (documents s), collected s))
             (main Sample.no_float Sample.urljoin_absolute Sample.url_path unit
                   Sample.two_page_site Sample.output_file Sample.write_ok 20 10 1 tt file)
  = Some ([ Some url;
            Some (Sample.review_url "alien-movie-review-1979");
            Some (Sample.review_url "heat-movie-review-1995");
            Some (Sample.review_url "fargo-movie-review-1996");
            Some (Sample.review_url "se7en-movie-review-1995") ], 4%nat).
Proof. vm_compute. reflexivity. Qed.

(** On the page with twelve reviews and an output path like the default
    one: after ten steps nine documents are accepted; the next step
    accepts the tenth and writes all ten to the file; when the loop has
    ended [main] writes all twelve. *)
Lemma checkpoint_every_tenth_and_at_exit_witness :
  let st := run Sample.no_float Sample.urljoin_absolute Sample.url_path unit
                Sample.twelve_site
                Sample.output_file Sample.write_ok 10 100 (crawl_init tt None 1) in
  exists st' sf',
    step Sample.no_float Sample.urljoin_absolute Sample.url_path unit
         Sample.twelve_site Sample.output_file Sample.write_ok 100 st = Some st' /\
    collected st = 9%nat /\
    collected st' = 10%nat /\
    disk st' = Some (JsonDocs (documents st')) /\
    main Sample.no_float Sample.urljoin_absolute Sample.url_path unit
         Sample.twelve_site Sample.output_file Sample.write_ok 20 100 1 tt None = Some sf' /\
    length (documents sf') = 12%nat /\
    persisted sf' = documents sf'.
Proof.
  intros st.
  assert (collected st = 9%nat) as Hnine by (vm_compute; reflexivity).
  assert (option_map collected
            (step Sample.no_float Sample.urljoin_absolute Sample.url_path unit
                  Sample.twelve_site
                  Sample.output_file Sample.write_ok 100 st) = Some 10%nat) as Hten
      by (vm_compute; reflexivity).
  assert (option_map (fun s => length (documents s))
            (crawl Sample.no_float Sample.urljoin_absolute Sample.url_path unit
                   Sample.twelve_site
                   Sample.output_file Sample.write_ok 20 100 1 tt None) = Some 12%nat)
    as Htwelve by (vm_compute; reflexivity).
  assert (OsPath.dirname Sample.output_file <> "") as Hdir by (vm_compute; discriminate).
  destruct (checkpoint_every_tenth_and_at_exit
              Sample.no_float Sample.urljoin_absolute Sample.url_path Sample.twelve_site
              Sample.output_file Sample.write_ok tt None 100 1 10 20 Hdir
              (fun _ _ => eq_refl)) as (_ & Hwrite & _ & Hexit).
  destruct (step Sample.no_float Sample.urljoin_absolute Sample.url_path unit
                 Sample.twelve_site Sample.output_file Sample.write_ok 100 st) as [st'|] eqn:Hstep;
    [|discriminate Hten].
  injection Hten as Hten.
  destruct (crawl Sample.no_float Sample.urljoin_absolute Sample.url_path unit
                  Sample.twelve_site
                  Sample.output_file Sample.write_ok 20 100 1 tt None) as [sf|] eqn:Hcrawl;
    [|discriminate Htwelve].
  injection Htwelve as Htwelve.
  assert (collected st' = S (collected st)) as Hcount by (rewrite Hten, Hnine; reflexivity).
  assert ((collected st' mod 10)%nat = 0%nat) as Hmod by (rewrite Hten; reflexivity).
  destruct (Hwrite st st' Hstep Hcount Hmod) as [Hdisk _].
  destruct (Hexit sf eq_refl) as (sf' & Hmain & Hdocs & Hpersisted & _).
  exists st', sf'.
  split; [reflexivity|]. split; [exact Hnine|]. split; [exact Hten|].
  split; [exact Hdisk|]. split; [exact Hmain|]. split.
  - rewrite Hdocs. exact Htwelve.
  - rewrite Hdocs. exact Hpersisted.
Defined.

(** On the page with twelve reviews and the output path ["reviews.json"]:
    nine documents are accepted, the pass that accepts the tenth raises,
    and nothing has been written. *)
Lemma output_path_without_directory_is_never_written_witness :
  let st := run Sample.no_float Sample.urljoin_absolute Sample.url_path unit
                Sample.twelve_site
                Sample.bare_output_file Sample.write_ok 20 100 (crawl_init tt None 1) in
  collected st = 9%nat /\
  disk st = None /\
  (forall docs, WriteFile docs ∉ trace st) /\
  iteration Sample.no_float Sample.urljoin_absolute Sample.url_path unit
            Sample.twelve_site Sample.bare_output_file Sample.write_ok 100 st
  = Raised FileNotFoundError.
Proof.
  intros st.
  destruct (output_path_without_directory_is_never_written
              Sample.no_float Sample.urljoin_absolute Sample.url_path Sample.twelve_site
              Sample.bare_output_file Sample.write_ok tt None 100 1 20 0 eq_refl)
    as (Hdisk & Htrace & _ & Hraise & _).
  split; [vm_compute; reflexivity|]. split; [exact Hdisk|]. split; [exact Htrace|].
  apply (Hraise st (hd Sample.jaws (pending st)) (tl (pending st)) tt Sample.review_page).
  - vm_compute. reflexivity.
  - vm_compute. reflexivity.
  - vm_compute. intros Hin. discriminate Hin.
  - vm_compute. reflexivity.
  - vm_compute. reflexivity.
Defined.

(** C9, as stated, fails: with the network down, a first run ends after two
    failed listing requests and [main] writes nothing. *)
Lemma no_write_when_nothing_collected :
  main Sample.no_float Sample.urljoin_absolute Sample.url_path unit Sample.offline
    Sample.output_file Sample.write_ok
       2 100 1 tt None
  = Some (mkSession tt [] ∅ 0 [] [] None
                    [GetListing "https://www.rogerebert.com/";
                     GetListing "https://www.rogerebert.com/reviews"]).
Proof. vm_compute. reflexivity. Qed.

(** Twelve reviews on one page: the file is written after the tenth
    document and once more at the end. *)
Example twelve_documents_two_writes :
  option_map (fun s => (length (documents s), map (@length _) (Sample.writes (trace s))))
             (main Sample.no_float Sample.urljoin_absolute Sample.url_path unit
                   Sample.twelve_site Sample.output_file Sample.write_ok 20 100 1 tt None)
  = Some (12%nat, [10%nat; 12%nat]).
Proof. vm_compute. reflexivity. Qed.

(** The end-to-end scenario of the specification: five documents and an
    empty queue with limit 10, two documents and a non-empty queue with
    limit 2. *)
Example two_page_site_limits :
  option_map (fun s => (length (documents s), listing_queue s))
             (main Sample.no_float Sample.urljoin_absolute Sample.url_path unit
                   Sample.two_page_site Sample.output_file Sample.write_ok 20 10 1 tt None)
  = Some (5%nat, []) /\
  option_map (fun s => (length (documents s), listing_queue s))
             (main Sample.no_float Sample.urljoin_absolute Sample.url_path unit
                   Sample.two_page_site Sample.output_file Sample.write_ok 20 2 1 tt None)
  = Some (2%nat, ["https://www.rogerebert.com/reviews"]).
Proof. vm_compute. split; reflexivity. Qed.

(** C2 fails on the code: a listing url is re-enqueued once it has left the
    queue. On a site whose pages all link to the reviews listing, that
    listing is fetched again and again. *)
Theorem listing_url_fetched_again :
  trace (run Sample.no_float Sample.urljoin_absolute Sample.url_path unit
             Sample.self_link_site Sample.output_file Sample.write_ok 4 100 (crawl_init tt None 1))
  = [GetListing "https://www.rogerebert.com/";
     GetListing "https://www.rogerebert.com/reviews";
     GetListing "https://www.rogerebert.com/reviews";
     GetListing "https://www.rogerebert.com/reviews"].
Proof. vm_compute. reflexivity. Qed.

(** On that site the crawl never ends: from the second step on, the queue
    holds the reviews listing alone, and fetching it puts it back. *)
Lemma self_link_step (tr : list Event) :
  step Sample.no_float Sample.urljoin_absolute Sample.url_path unit Sample.self_link_site
    Sample.output_file Sample.write_ok 100
       (mkSession tt [] ∅ 0 ["https://www.rogerebert.com/reviews"] [] None tr)
  = Some (mkSession tt [] ∅ 0 ["https://www.rogerebert.com/reviews"] [] None
                    (tr ++ [GetListing "https://www.rogerebert.com/reviews"])).
Proof. vm_compute. reflexivity. Qed.

Lemma self_link_run (n : nat) (tr : list Event) :
  exists tr',
    run Sample.no_float Sample.urljoin_absolute Sample.url_path unit Sample.self_link_site
      Sample.output_file Sample.write_ok
        n 100 (mkSession tt [] ∅ 0 ["https://www.rogerebert.com/reviews"] [] None tr)
    = mkSession tt [] ∅ 0 ["https://www.rogerebert.com/reviews"] [] None tr'.
Proof.
  revert tr. induction n as [|n IH]; intros tr; [exists tr; reflexivity|].
  cbn [run]. rewrite self_link_step. apply IH.
Qed.

Lemma self_link_crawl_never_ends (fuel : nat) :
  (exists s',
      step Sample.no_float Sample.urljoin_absolute Sample.url_path unit
           Sample.self_link_site Sample.output_file Sample.write_ok 100
           (run Sample.no_float Sample.urljoin_absolute Sample.url_path unit
                Sample.self_link_site
                Sample.output_file Sample.write_ok fuel 100 (crawl_init tt None 1))
      = Some s') /\
  crawl Sample.no_float Sample.urljoin_absolute Sample.url_path unit
        Sample.self_link_site Sample.output_file Sample.write_ok fuel 100 1 tt None = None.
Proof.
  assert (exists s',
             step Sample.no_float Sample.urljoin_absolute Sample.url_path unit
                  Sample.self_link_site Sample.output_file Sample.write_ok 100
                  (run Sample.no_float Sample.urljoin_absolute Sample.url_path unit
                       Sample.self_link_site Sample.output_file Sample.write_ok fuel 100
                       (crawl_init tt None 1))
             = Some s') as [s' Hnext].
  { destruct fuel as [|n].
    - exists (mkSession tt [] ∅ 0%nat ["https://www.rogerebert.com/reviews"] [] None
                        [GetListing "https://www.rogerebert.com/"]).
      vm_compute. reflexivity.
    - cbn [run].
      replace (step Sample.no_float Sample.urljoin_absolute Sample.url_path unit
                    Sample.self_link_site
                    Sample.output_file Sample.write_ok 100 (crawl_init tt None 1))
        with (Some (mkSession tt [] ∅ 0%nat ["https://www.rogerebert.com/reviews"] [] None
                              [GetListing "https://www.rogerebert.com/"]))
        by (vm_compute; reflexivity).
      destruct (self_link_run n [GetListing "https://www.rogerebert.com/"]) as [tr' ->].
      rewrite self_link_step. eauto. }
  split; [eauto|].
  unfold crawl. unfold step in Hnext. cbn [loads].
  destruct (iteration _ _ _ _ _ _ _ _); [reflexivity|discriminate Hnext|reflexivity].
Qed.

(* ===================================================================== *)
(** * Further properties of the utilities *)
(* ===================================================================== *)

(** ** clean_text *)

Section CleanText.

Lemma collapse_single_spaced (b : bool) (s : string) :
  single_spaced b (PyStr.collapse_ws b s) = true.
Proof.
  revert b. induction s as [|c r IH]; intros b; cbn; [reflexivity|].
  destruct (PyStr.is_space c) eqn:Hc.
  - destruct b; [apply IH|].
    cbn. change (PyStr.is_space " ") with true. cbn. apply IH.
  - cbn. rewrite Hc. apply IH.
Qed.

Lemma lstrip_single_spaced (b : bool) (s : string) :
  single_spaced b s = true -> single_spaced true (PyStr.lstrip s) = true.
Proof.
  revert b. induction s as [|c r IH]; intros b; cbn; [reflexivity|].
  destruct (PyStr.is_space c) eqn:Hc.
  - intros H. apply andb_true_iff in H as [_ H]. now apply (IH true).
  - intros H. cbn. now rewrite Hc.
Qed.

Lemma all_space_not_clean_end (s : string) :
  s <> "" -> PyStr.all_space s = true -> no_trailing_space s = false.
Proof.
  induction s as [|c r IH]; [congruence|]. intros _ H. cbn in H.
  apply andb_true_iff in H as [Hc Hr].
  destruct r as [|c' r']; [cbn; now rewrite Hc|].
  change (no_trailing_space (String c (String c' r')))
    with (no_trailing_space (String c' r')).
  now apply IH.
Qed.

Lemma rstrip_single_spaced (b : bool) (s : string) :
  single_spaced b s = true -> single_spaced b (PyStr.rstrip s) = true.
Proof.
  revert b. induction s as [|c r IH]; intros b; [reflexivity|].
  intros H. cbn [PyStr.rstrip].
  destruct (PyStr.all_space (String c r)); [reflexivity|].
  cbn in *. destruct (PyStr.is_space c).
  - apply andb_true_iff in H as [H1 H2]. rewrite H1. now apply IH.
  - now apply IH.
Qed.

Lemma rstrip_no_trailing_space (s : string) :
  no_trailing_space (PyStr.rstrip s) = true.
Proof.
  induction s as [|c r IH]; [reflexivity|].
  cbn [PyStr.rstrip].
  destruct (PyStr.all_space (String c r)) eqn:Hall; [reflexivity|].
  destruct (PyStr.rstrip r) as [|c' r'] eqn:Hr.
  - cbn. cbn in Hall. destruct (PyStr.is_space c); [|reflexivity].
    cbn in Hall.
    assert (PyStr.all_space r = true) as Habs.
    { clear -Hr. induction r as [|c2 r2 IH2]; [reflexivity|].
      cbn [PyStr.rstrip] in Hr.
      destruct (PyStr.all_space (String c2 r2)); [reflexivity|discriminate]. }
    congruence.
  - exact IH.
Qed.

Lemma clean_text_is_clean (text : string) :
  is_clean (ScraperUtils.clean_text text) = true.
Proof.
  unfold ScraperUtils.clean_text, is_clean.
  destruct (PyStr.nonempty text); [|reflexivity].
  unfold PyStr.strip. rewrite rstrip_no_trailing_space, andb_true_r.
  apply rstrip_single_spaced, (lstrip_single_spaced false), collapse_single_spaced.
Qed.

Lemma collapse_of_single_spaced (b : bool) (s : string) :
  single_spaced b s = true -> PyStr.collapse_ws b s = s.
Proof.
  revert b. induction s as [|c r IH]; intros b; cbn; [reflexivity|].
  destruct (PyStr.is_space c) eqn:Hc.
  - intros H. apply andb_true_iff in H as [H Hr].
    apply andb_true_iff in H as [Heq Hb].
    apply Ascii.eqb_eq in Heq. subst c.
    destruct b; [discriminate|]. now rewrite (IH true).
  - intros H. now rewrite (IH false).
Qed.

Lemma lstrip_of_single_spaced (s : string) :
  single_spaced true s = true -> PyStr.lstrip s = s.
Proof.
  destruct s as [|c r]; [reflexivity|]. cbn.
  destruct (PyStr.is_space c); [|reflexivity].
  rewrite andb_false_r. discriminate.
Qed.

Lemma rstrip_of_no_trailing_space (s : string) :
  no_trailing_space s = true -> PyStr.rstrip s = s.
Proof.
  induction s as [|c r IH]; [reflexivity|]. intros H.
  cbn [PyStr.rstrip].
  destruct (PyStr.all_space (String c r)) eqn:Hall.
  - rewrite all_space_not_clean_end in H; [discriminate|discriminate|exact Hall].
  - f_equal. apply IH. destruct r; [reflexivity|exact H].
Qed.

(** For ASCII text, the result of [clean_text] is whitespace-normalized:
    every whitespace character is a single space between two other
    characters. The texts [clean_text] leaves as they are are exactly the
    normalized ones; in particular cleaning twice is cleaning once. *)
Theorem clean_text_fixed_points (text : string) :
  PyStr.is_ascii text = true ->
  is_clean (ScraperUtils.clean_text text) = true /\
  (ScraperUtils.clean_text text = text <-> is_clean text = true) /\
  ScraperUtils.clean_text (ScraperUtils.clean_text text) = ScraperUtils.clean_text text.
Proof.
  intros _.
  assert (forall s, is_clean s = true -> ScraperUtils.clean_text s = s) as Hfix.
  { intros s Hs. unfold is_clean in Hs. apply andb_true_iff in Hs as [H1 H2].
    unfold ScraperUtils.clean_text, PyStr.strip.
    destruct s as [|c r]; [reflexivity|]. cbn [PyStr.nonempty].
    assert (single_spaced false (String c r) = true) as H0.
    { cbn in *. destruct (PyStr.is_space c); [|exact H1].
      rewrite andb_false_r in H1. discriminate. }
    rewrite (collapse_of_single_spaced false _ H0).
    rewrite (lstrip_of_single_spaced _ H1).
    now apply rstrip_of_no_trailing_space. }
  split; [apply clean_text_is_clean|]. split; [split|].
  - intros <-. apply clean_text_is_clean.
  - apply Hfix.
  - apply Hfix, clean_text_is_clean.
Qed.

Lemma clean_text_fixed_points_witness :
  ScraperUtils.clean_text "  Jaws   (1975) " = "Jaws (1975)" /\
  is_clean "Jaws (1975)" = true /\
  ScraperUtils.clean_text "Jaws (1975)" = "Jaws (1975)".
Proof.
  split; [reflexivity|].
  destruct (clean_text_fixed_points "Jaws (1975)" eq_refl) as (_ & [_ Hfix] & _).
  split; [reflexivity|]. apply Hfix. reflexivity.
Defined.

End CleanText.

(** ** extract_year *)

Section ExtractYear.

Lemma is_digit_cases (c : ascii) :
  PyStr.is_digit c = true ->
  In c ["0"; "1"; "2"; "3"; "4"; "5"; "6"; "7"; "8"; "9"]%char.
Proof.
  destruct c as [[] [] [] [] [] [] [] []]; cbn; intros H;
    try discriminate H; tauto.
Qed.

Lemma year_at_spec (s : string) (y : Z) :
  ScraperUtils.year_at s = Some y ->
  1900 <= y <= 2099 /\ exists rest, s = PyStr.of_int y +:+ rest.
Proof.
  destruct s as [|c1 [|c2 [|c3 [|c4 rest]]]]; try discriminate.
  unfold ScraperUtils.year_at.
  destruct (PyStr.is_digit c3) eqn:H3; [|rewrite andb_false_r; discriminate].
  destruct (PyStr.is_digit c4) eqn:H4; [|rewrite andb_false_r; discriminate].
  rewrite !andb_true_r.
  apply is_digit_cases in H3, H4.
  destruct (Ascii.eqb_spec c1 "1") as [->|_]; cbn [andb orb].
  - destruct (Ascii.eqb_spec c2 "9") as [->|_]; [|discriminate].
    intros [= <-]. cbn in H3, H4.
    repeat (destruct H3 as [<-|H3]);
      repeat (destruct H4 as [<-|H4]);
      try contradiction;
      (split; [vm_compute; split; discriminate|exists rest; reflexivity]).
  - destruct (Ascii.eqb_spec c1 "2") as [->|_]; [|discriminate].
    destruct (Ascii.eqb_spec c2 "0") as [->|_]; [|discriminate].
    intros [= <-]. cbn in H3, H4.
    repeat (destruct H3 as [<-|H3]);
      repeat (destruct H4 as [<-|H4]);
      try contradiction;
      (split; [vm_compute; split; discriminate|exists rest; reflexivity]).
Qed.

Lemma year_at_needs_digit (s : string) :
  PyStr.some_char PyStr.is_digit s = false -> ScraperUtils.year_at s = None.
Proof.
  destruct s as [|c1 [|c2 [|c3 [|c4 rest]]]]; try reflexivity.
  cbn. intros H. apply orb_false_iff in H as [_ H].
  apply orb_false_iff in H as [_ H]. apply orb_false_iff in H as [H3 _].
  rewrite H3, andb_false_r. reflexivity.
Qed.

Lemma extract_year_some (text : string) (y : Z) :
  ScraperUtils.extract_year text = Some y ->
  1900 <= y <= 2099 /\ occurs_in (PyStr.of_int y) text.
Proof.
  induction text as [|c r IH].
  - discriminate.
  - cbn [ScraperUtils.extract_year].
    destruct (ScraperUtils.year_at (String c r)) as [y'|] eqn:Hat.
    + intros [= ->]. apply year_at_spec in Hat as [Hr [rest Hrest]].
      split; [exact Hr|]. exists "", rest. exact Hrest.
    + intros H. apply IH in H as [Hr (pre & post & ->)].
      split; [exact Hr|]. exists (String c pre), post. reflexivity.
Qed.

(** A year found by [extract_year] in an ASCII text lies between 1900 and
    2099 and its four digits stand in the text. *)
Theorem extract_year_sound (text : string) (y : Z) :
  PyStr.is_ascii text = true ->
  ScraperUtils.extract_year text = Some y ->
  1900 <= y <= 2099 /\ occurs_in (PyStr.of_int y) text.
Proof. intros _. apply extract_year_some. Qed.

Lemma extract_year_sound_witness :
  1900 <= 1975 <= 2099 /\ occurs_in (PyStr.of_int 1975) "Jaws (1975), 2012 cut".
Proof.
  apply (extract_year_sound "Jaws (1975), 2012 cut" 1975); reflexivity.
Defined.

(** A text without any digit has no year. *)
Lemma extract_year_needs_digit (text : string) :
  PyStr.some_char PyStr.is_digit text = false -> ScraperUtils.extract_year text = None.
Proof.
  induction text as [|c r IH]; [reflexivity|]. intros H.
  cbn [ScraperUtils.extract_year]. rewrite (year_at_needs_digit _ H).
  apply IH. cbn in H. now apply orb_false_iff in H as [_ H].
Qed.

End ExtractYear.

(** ** extract_number *)

Section ExtractNumber.

Lemma int_of_digits_nonneg (s : string) (acc : Z) :
  PyStr.all_chars PyStr.is_digit s = true -> 0 <= acc -> 0 <= PyStr.int_of_digits acc s.
Proof.
  revert acc. induction s as [|c r IH]; intros acc Hs Hacc; [exact Hacc|].
  cbn in Hs |- *. apply andb_true_iff in Hs as [Hc Hr].
  apply IH; [exact Hr|].
  unfold PyStr.is_digit in Hc. apply andb_true_iff in Hc as [Hc _].
  apply N.leb_le in Hc. lia.
Qed.

Lemma number_run_digits (s : string) :
  PyStr.all_chars PyStr.is_digit
    (PyStr.keep (fun c => negb (Ascii.eqb c ","))
                (PyStr.take_while ScraperUtils.is_number_char s)) = true.
Proof.
  induction s as [|c r IH]; [reflexivity|]. cbn.
  unfold ScraperUtils.is_number_char at 1.
  destruct (Ascii.eqb c ",") eqn:Hcomma.
  - rewrite orb_true_r. cbn. rewrite Hcomma. exact IH.
  - rewrite orb_false_r. destruct (PyStr.is_digit c) eqn:Hd; [|reflexivity].
    cbn. rewrite Hcomma. cbn. now rewrite Hd.
Qed.

Lemma keep_nonempty_digit (s : string) :
  PyStr.all_chars ScraperUtils.is_number_char s = true ->
  PyStr.nonempty (PyStr.keep (fun c => negb (Ascii.eqb c ",")) s)
  = PyStr.some_char PyStr.is_digit s.
Proof.
  induction s as [|c r IH]; [reflexivity|]. cbn. intros H.
  apply andb_true_iff in H as [Hc Hr]. unfold ScraperUtils.is_number_char in Hc.
  destruct (Ascii.eqb_spec c ",") as [->|Hne]; cbn.
  - now apply IH.
  - rewrite orb_false_r in Hc. now rewrite Hc.
Qed.

Lemma take_while_all (p : ascii -> bool) (s : string) :
  PyStr.all_chars p (PyStr.take_while p s) = true.
Proof.
  induction s as [|c r IH]; [reflexivity|]. cbn.
  destruct (p c) eqn:Hc; [|reflexivity]. cbn. now rewrite Hc.
Qed.

Lemma drop_while_head (p : ascii -> bool) (s : string) (c : ascii) (r : string) :
  PyStr.drop_while p s = String c r -> p c = false.
Proof.
  induction s as [|c' r' IH]; [discriminate|]. cbn.
  destruct (p c') eqn:Hc; [exact IH|]. now intros [= <- _].
Qed.

(** On ASCII text, [extract_number] never returns a negative number. It
    returns nothing exactly when the first run of digits and commas in the
    text holds no digit, whatever follows that run, or holds more than 640
    digits and more than the interpreter's bound, if there is one. *)
Theorem extract_number_spec (max_str_digits : Z) (text : string) :
  PyStr.is_ascii text = true ->
  let run := PyStr.take_while ScraperUtils.is_number_char
               (PyStr.drop_while (fun c => negb (ScraperUtils.is_number_char c)) text) in
  let digits :=
    Z.of_nat (String.length (PyStr.keep (fun c => negb (Ascii.eqb c ",")) run)) in
  (forall n, ScraperUtils.extract_number max_str_digits text = Some n -> 0 <= n) /\
  (ScraperUtils.extract_number max_str_digits text = None <->
   PyStr.some_char PyStr.is_digit run = false \/
   (640 < digits /\ 0 < max_str_digits < digits)).
Proof.
  intros _ run digits. unfold digits, run, ScraperUtils.extract_number. clear run digits.
  destruct (PyStr.drop_while _ text) as [|c r] eqn:Hrest.
  - split; [discriminate|]. split; [now left|reflexivity].
  - unfold PyStr.int_of_str.
    rewrite keep_nonempty_digit by apply take_while_all.
    destruct (PyStr.some_char PyStr.is_digit _) eqn:Hd.
    + set (digits := Z.of_nat (String.length _)).
      destruct (Z.ltb_spec 640 digits) as [H1|H1];
        destruct (Z.ltb_spec 0 max_str_digits) as [H2|H2];
        destruct (Z.ltb_spec max_str_digits digits) as [H3|H3]; cbn [andb].
      1: { split; [discriminate|]. split; [intros _; right; lia|reflexivity]. }
      all: split;
        [ intros n [= <-];
          apply int_of_digits_nonneg; [exact (number_run_digits (String c r))|lia]
        | split; [discriminate|intros [Hnone|Hbound]; [discriminate Hnone|lia]] ].
    + split; [discriminate|]. split; [now left|reflexivity].
Qed.

Lemma extract_number_spec_witness :
  ScraperUtils.extract_number 4300 "1,234 reviews" = Some 1234 /\
  0 <= 1234 /\
  ScraperUtils.extract_number 4300 "Rated: ,,, 12" = None.
Proof.
  split; [reflexivity|]. split.
  - destruct (extract_number_spec 4300 "1,234 reviews" eq_refl) as [Hpos _].
    apply Hpos. reflexivity.
  - destruct (extract_number_spec 4300 "Rated: ,,, 12" eq_refl) as [_ [_ Hnone]].
    apply Hnone. left. reflexivity.
Defined.

(** With the bound of a current interpreter and without one. *)
Example extract_number_examples :
  map (ScraperUtils.extract_number 4300)
      ["1,234 reviews"; "no number"; ",,, 12"; "x 007, 5"; ""]
  = [Some 1234; None; None; Some 7; None] /\
  map (ScraperUtils.extract_number 0)
      ["1,234 reviews"; "no number"; ",,, 12"; "x 007, 5"; ""]
  = [Some 1234; None; None; Some 7; None].
Proof. split; vm_compute; reflexivity. Qed.

End ExtractNumber.

(** ** truncate_text *)

Section TruncateText.

Lemma take_prefix (n : nat) (s : string) : is_prefix (PyStr.take n s) s.
Proof.
  revert s. induction n as [|n IH]; intros s; [exists s; reflexivity|].
  destruct s as [|c r]; [exists ""; reflexivity|].
  destruct (IH r) as [rest Hrest]. exists rest.
  change (String c r = String c (PyStr.take n r +:+ rest)). f_equal. exact Hrest.
Qed.

Lemma take_length_le (n : nat) (s : string) :
  (String.length (PyStr.take n s) <= n)%nat.
Proof.
  revert s. induction n as [|n IH]; intros s; [cbn; lia|].
  destruct s as [|c r]; cbn; [lia|]. specialize (IH r). lia.
Qed.

Lemma append_length (a b : string) :
  String.length (a +:+ b) = (String.length a + String.length b)%nat.
Proof.
  induction a as [|c a IH]; [reflexivity|].
  change (S (String.length (a +:+ b)) = S (String.length a + String.length b)).
  now f_equal.
Qed.

Lemma append_assoc (a b c : string) : (a +:+ b) +:+ c = a +:+ (b +:+ c).
Proof.
  induction a as [|x a IH]; [reflexivity|].
  change (String x ((a +:+ b) +:+ c) = String x (a +:+ (b +:+ c))).
  now f_equal.
Qed.

Lemma before_last_space_none (s : string) :
  PyStr.before_last_space s = None -> PyStr.some_char (Ascii.eqb " ") s = false.
Proof.
  induction s as [|c r IH]; [reflexivity|].
  cbn [PyStr.before_last_space].
  destruct (PyStr.before_last_space r); [discriminate|].
  change (PyStr.some_char (Ascii.eqb " ") (String c r))
    with (Ascii.eqb " " c || PyStr.some_char (Ascii.eqb " ") r).
  destruct (Ascii.eqb_spec c " ") as [->|Hne]; [discriminate|].
  intros _. rewrite IH by reflexivity.
  destruct (Ascii.eqb_spec " " c) as [<-|_]; [congruence|reflexivity].
Qed.

Lemma before_last_space_spec (s p : string) :
  PyStr.before_last_space s = Some p ->
  exists q, s = p +:+ " " +:+ q /\ PyStr.some_char (Ascii.eqb " ") q = false.
Proof.
  revert p. induction s as [|c r IH]; intros p; [discriminate|].
  cbn [PyStr.before_last_space].
  destruct (PyStr.before_last_space r) as [p'|] eqn:Hr.
  - intros [= <-]. destruct (IH p' eq_refl) as (q & -> & Hq).
    exists q. split; [reflexivity|exact Hq].
  - destruct (Ascii.eqb_spec c " ") as [->|_]; [|discriminate].
    intros [= <-]. exists r. split; [reflexivity|].
    now apply before_last_space_none.
Qed.

Lemma slice_to_prefix (n : Z) (s : string) :
  0 <= n -> PyStr.slice_to n s = PyStr.take (Z.to_nat n) s.
Proof.
  intros Hn. unfold PyStr.slice_to.
  destruct (Z.ltb_spec n 0); [lia|reflexivity].
Qed.

(** For ASCII text and a non-negative [max_length]: a text that fits is
    returned as it is. A longer text is cut to its first [max_length] characters and then
    back to the last space among them, if there is one, and ["..."] is
    added: the result is at most [max_length + 3] characters long, three
    more than [max_length]. *)
Theorem truncate_text_spec (text : string) (max_length : Z) :
  PyStr.is_ascii text = true ->
  0 <= max_length ->
  let result := ScraperUtils.truncate_text text max_length in
  let cut := PyStr.take (Z.to_nat max_length) text in
  Z.of_nat (String.length result) <= max_length + 3 /\
  (Z.of_nat (String.length text) <= max_length -> result = text) /\
  (max_length < Z.of_nat (String.length text) ->
   exists p,
     result = p +:+ "..." /\
     is_prefix p text /\
     ((PyStr.some_char (Ascii.eqb " ") cut = false /\ p = cut) \/
      (exists q, cut = p +:+ " " +:+ q /\ PyStr.some_char (Ascii.eqb " ") q = false))).
Proof.
  intros _ Hmax result cut. unfold result, ScraperUtils.truncate_text.
  rewrite slice_to_prefix by exact Hmax. fold cut.
  destruct (Z.leb_spec (Z.of_nat (String.length text)) max_length) as [Hfit|Hlong].
  - split; [lia|]. split; [reflexivity|lia].
  - assert (exists p,
               PyStr.rsplit_space_head cut = p /\
               (String.length p <= Z.to_nat max_length)%nat /\
               is_prefix p text /\
               ((PyStr.some_char (Ascii.eqb " ") cut = false /\ p = cut) \/
                (exists q, cut = p +:+ " " +:+ q /\
                           PyStr.some_char (Ascii.eqb " ") q = false)))
      as (p & Hp & Hlen & Hpre & Hshape).
    { unfold PyStr.rsplit_space_head.
      pose proof (take_length_le (Z.to_nat max_length) text) as Hcut. fold cut in Hcut.
      destruct (take_prefix (Z.to_nat max_length) text) as [rest Hrest]. fold cut in Hrest.
      destruct (PyStr.before_last_space cut) as [p|] eqn:Hb.
      - destruct (before_last_space_spec _ _ Hb) as (q & Hq & Hnq).
        exists p. split; [reflexivity|]. split.
        + rewrite Hq, append_length in Hcut. lia.
        + split; [|right; exists q; auto].
          exists (" " +:+ q +:+ rest). rewrite Hrest at 1. rewrite Hq.
          now rewrite !append_assoc.
      - exists cut. split; [reflexivity|]. split; [exact Hcut|].
        split; [exists rest; exact Hrest|]. left. split; [|reflexivity].
        now apply before_last_space_none. }
    rewrite Hp. split.
    + rewrite append_length. cbn. lia.
    + split; [lia|]. intros _. exists p. auto.
Qed.

Lemma truncate_text_spec_witness :
  ScraperUtils.truncate_text "a fine film about sharks" 12 = "a fine film..." /\
  Z.of_nat (String.length (ScraperUtils.truncate_text "helloworldfoo" 8)) <= 8 + 3 /\
  ScraperUtils.truncate_text "helloworldfoo" 8 = "hellowor...".
Proof.
  split; [reflexivity|]. split; [|reflexivity].
  apply (truncate_text_spec "helloworldfoo" 8); [reflexivity|lia].
Defined.

End TruncateText.

(** ** split_list *)

Section SplitList.

Lemma lstrip_starts_clean (s : string) : starts_clean (PyStr.lstrip s) = true.
Proof.
  induction s as [|c r IH]; [reflexivity|]. cbn [PyStr.lstrip].
  destruct (PyStr.is_space c) eqn:Hc; [exact IH|]. cbn. now rewrite Hc.
Qed.

Lemma lstrip_of_starts_clean (s : string) :
  starts_clean s = true -> PyStr.lstrip s = s.
Proof.
  destruct s as [|c r]; [reflexivity|]. cbn.
  destruct (PyStr.is_space c); [discriminate|reflexivity].
Qed.

Lemma rstrip_starts_clean (s : string) :
  starts_clean s = true -> starts_clean (PyStr.rstrip s) = true.
Proof.
  destruct s as [|c r]; [reflexivity|]. cbn [PyStr.rstrip].
  destruct (PyStr.all_space (String c r)); [reflexivity|]. exact (fun H => H).
Qed.

(** Stripping twice is stripping once. *)
Lemma strip_idempotent (s : string) : PyStr.strip (PyStr.strip s) = PyStr.strip s.
Proof.
  unfold PyStr.strip.
  rewrite (lstrip_of_starts_clean (PyStr.rstrip (PyStr.lstrip s)))
    by apply rstrip_starts_clean, lstrip_starts_clean.
  apply rstrip_of_no_trailing_space, rstrip_no_trailing_space.
Qed.

Lemma some_char_append (p : ascii -> bool) (a b : string) :
  PyStr.some_char p (a +:+ b) = PyStr.some_char p a || PyStr.some_char p b.
Proof.
  induction a as [|c a IH]; [reflexivity|].
  change (p c || PyStr.some_char p (a +:+ b)
          = p c || PyStr.some_char p a || PyStr.some_char p b).
  rewrite IH. now rewrite orb_assoc.
Qed.

Lemma lstrip_some_char (p : ascii -> bool) (s : string) :
  PyStr.some_char p s = false -> PyStr.some_char p (PyStr.lstrip s) = false.
Proof.
  induction s as [|c r IH]; [reflexivity|]. cbn [PyStr.lstrip].
  destruct (PyStr.is_space c); [|exact (fun H => H)].
  intros H. apply IH. cbn in H. now apply orb_false_iff in H as [_ H].
Qed.

Lemma rstrip_some_char (p : ascii -> bool) (s : string) :
  PyStr.some_char p s = false -> PyStr.some_char p (PyStr.rstrip s) = false.
Proof.
  induction s as [|c r IH]; [reflexivity|]. cbn [PyStr.rstrip].
  destruct (PyStr.all_space (String c r)); [reflexivity|].
  intros H. cbn in H |- *. apply orb_false_iff in H as [Hc Hr].
  now rewrite Hc, IH.
Qed.

Lemma split_acc_no_delimiter (d : ascii) (s cur : string) :
  PyStr.some_char (fun c => Ascii.eqb c d) cur = false ->
  Forall (fun x => PyStr.some_char (fun c => Ascii.eqb c d) x = false)
         (PyStr.split_acc d cur s).
Proof.
  revert cur. induction s as [|c r IH]; intros cur Hcur; cbn [PyStr.split_acc].
  - constructor; [exact Hcur|constructor].
  - destruct (Ascii.eqb c d) eqn:Hc.
    + constructor; [exact Hcur|]. now apply IH.
    + apply IH. rewrite some_char_append, Hcur. cbn. now rewrite Hc.
Qed.

Lemma split_list_items_stripped (text : string) (delimiter : ascii) :
  Forall (fun item =>
            item <> "" /\
            PyStr.strip item = item /\
            PyStr.some_char (fun c => Ascii.eqb c delimiter) item = false)
         (ScraperUtils.split_list text delimiter).
Proof.
  unfold ScraperUtils.split_list.
  destruct (PyStr.nonempty text); [|constructor].
  apply Forall_forall. intros item Hitem.
  apply list_elem_of_filter in Hitem as [Hne Hin].
  apply list_elem_of_In, in_map_iff in Hin as (piece & <- & Hpiece).
  split; [intros Heq; rewrite Heq in Hne; discriminate|].
  split; [apply strip_idempotent|].
  unfold PyStr.strip. apply rstrip_some_char, lstrip_some_char.
  pose proof (split_acc_no_delimiter delimiter text "" eq_refl) as Hall.
  rewrite Forall_forall in Hall. apply Hall, list_elem_of_In, Hpiece.
Qed.

(** Every item [split_list] returns is non-empty, has no whitespace at
    either end, and does not contain the delimiter. *)
Theorem split_list_items (text : string) (delimiter : ascii) :
  Forall (fun item =>
            item <> "" /\
            PyStr.strip item = item /\
            PyStr.some_char (fun c => Ascii.eqb c delimiter) item = false)
         (ScraperUtils.split_list text delimiter).
Proof. apply split_list_items_stripped. Qed.

Example split_list_example :
  ScraperUtils.split_list " Drama , ,Crime,  Film Noir ," ","
  = ["Drama"; "Crime"; "Film Noir"].
Proof. vm_compute. reflexivity. Qed.

End SplitList.

(* ===================================================================== *)
(** * Further properties of the scraper *)
(* ===================================================================== *)

(** ** Listing pages *)

Section Listing.

Context (urljoin : string -> string -> string) (urlparse_path : string -> string).

Lemma str_or_clean (a b : string) :
  is_clean a = true -> is_clean b = true -> b <> "" ->
  PyStr.str_or a b <> "" /\ is_clean (PyStr.str_or a b) = true.
Proof.
  intros Ha Hb Hne. unfold PyStr.str_or.
  destruct a as [|c r]; cbn [PyStr.nonempty]; [auto|]. split; [discriminate|exact Ha].
Qed.

Lemma opt_int_or_cases (a b : option Z) (y : Z) :
  opt_int_or a b = Some y -> a = Some y \/ b = Some y.
Proof.
  unfold opt_int_or. destruct a as [n|]; [|auto].
  destruct (Z.eqb n 0); auto.
Qed.

Lemma summary_near_link_clean (link : Anchor) :
  is_clean (_extract_summary_near_link link) = true.
Proof.
  unfold _extract_summary_near_link.
  destruct (tag_or _ _) as [parent|]; [|reflexivity].
  destruct (tag_or _ _) as [teaser|]; [apply clean_text_is_clean|reflexivity].
Qed.

(** The loop of [_parse_listing] keeps: fewer than 50 entries while it
    runs, pairwise distinct urls that are all in [seen_urls], and
    well-formed entries. *)
Lemma listing_entries_invariant
    (links : list Anchor) (entries : list ListingEntry.t) (seen_urls : gset string) :
  (length entries < 50)%nat ->
  NoDup (map ListingEntry.url entries) ->
  (forall e, e ∈ entries -> ListingEntry.url e ∈ seen_urls) ->
  Forall (well_formed_entry urlparse_path) entries ->
  let result := listing_entries urljoin urlparse_path links entries seen_urls in
  (length result <= 50)%nat /\
  NoDup (map ListingEntry.url result) /\
  Forall (well_formed_entry urlparse_path) result.
Proof.
  revert entries seen_urls.
  induction links as [|link rest IH]; intros entries seen_urls Hlen Hnd Hseen Hwf; cbn zeta.
  - cbn. split; [lia|auto].
  - cbn [listing_entries].
    destruct (attrs (a_tag link) !! "href") as [href|]; [|now apply IH].
    destruct (PyStr.nonempty href); cbn [negb]; [|now apply IH].
    destruct (_looks_like_review urlparse_path (urljoin BASE_URL href)) eqn:Hlooks;
      cbn [negb]; [|now apply IH].
    destruct (bool_decide _) eqn:Hin; [now apply IH|].
    apply bool_decide_eq_false in Hin.
    set (title := PyStr.str_or (ScraperUtils.clean_text (get_text (a_tag link)))
                               "Untitled Review").
    set (summary := _extract_summary_near_link link).
    set (year := opt_int_or (ScraperUtils.extract_year title)
                            (ScraperUtils.extract_year summary)).
    set (e := ListingEntry.mk title (urljoin BASE_URL href) year None summary).
    assert (well_formed_entry urlparse_path e) as He.
    { destruct (str_or_clean (ScraperUtils.clean_text (get_text (a_tag link)))
                             "Untitled Review") as [Hne Hclean];
        [apply clean_text_is_clean|reflexivity|discriminate|].
      unfold well_formed_entry, e. cbn.
      split; [exact Hne|]. split; [exact Hclean|]. split; [exact Hlooks|].
      split; [reflexivity|]. split; [|apply summary_near_link_clean].
      intros y Hy. apply opt_int_or_cases in Hy as [Hy|Hy];
        now apply extract_year_some in Hy. }
    assert (NoDup (map ListingEntry.url (entries ++ [e]))) as Hnd'.
    { rewrite map_app. apply NoDup_app. split; [exact Hnd|].
      split; [|apply NoDup_singleton].
      intros u Hu Hu'. apply list_elem_of_singleton in Hu'. cbn in Hu'.
      apply Hin. apply list_elem_of_In, in_map_iff in Hu as (e' & Heq & He').
      rewrite <- Hu', <- Heq. apply Hseen, list_elem_of_In, He'. }
    assert (Forall (well_formed_entry urlparse_path) (entries ++ [e])) as Hwf'.
    { apply Forall_app. split; [exact Hwf|]. constructor; [exact He|constructor]. }
    destruct (Nat.leb_spec 50 (length (entries ++ [e]))) as [Hfull|Hroom].
    + split; [rewrite length_app in *; cbn in *; lia|auto].
    + apply IH; auto.
      intros e' He'. apply elem_of_app in He' as [He'|He'].
      * apply elem_of_union_r, Hseen, He'.
      * apply list_elem_of_singleton in He'. subst e'. apply elem_of_union_l.
        now apply elem_of_singleton.
Qed.

(** [_parse_listing] returns at most 50 entries, with pairwise distinct
    urls, each of them well formed; a page without review links gives
    none. *)
Theorem parse_listing_entries (soup : Soup) (source_url : string) :
  let entries := fst (_parse_listing urljoin urlparse_path soup source_url) in
  (length entries <= 50)%nat /\
  NoDup (map ListingEntry.url entries) /\
  Forall (well_formed_entry urlparse_path) entries /\
  (sel_review_links soup = [] -> entries = []).
Proof.
  cbn [_parse_listing fst].
  destruct (listing_entries_invariant (sel_review_links soup) [] ∅)
    as (Hlen & Hnd & Hwf); [cbn; lia|constructor| |constructor|].
  { intros e He. inversion He. }
  split; [exact Hlen|]. split; [exact Hnd|]. split; [exact Hwf|].
  now intros ->.
Qed.

(** *** Pagination discovery *)

Lemma add_href_spec (current_url : string) (t : option Tag) (urls : gset string) (u : string) :
  u ∈ add_href urljoin current_url t urls <->
  u ∈ urls \/ exists href, truthy_attr t "href" = Some href /\ u = urljoin current_url href.
Proof.
  unfold add_href. destruct (truthy_attr t "href") as [href|].
  - rewrite elem_of_union, elem_of_singleton. split.
    + intros [->|H]; [right; eauto|now left].
    + intros [H|(h & [= <-] & ->)]; auto.
  - split; [auto|]. intros [H|(h & Hh & _)]; [exact H|discriminate].
Qed.

Lemma add_href_size (current_url : string) (t : option Tag) (urls : gset string) :
  (size (add_href urljoin current_url t urls) <= S (size urls))%nat.
Proof.
  unfold add_href. destruct (truthy_attr t "href") as [href|]; [|lia].
  rewrite size_union_alt, size_singleton.
  pose proof (subseteq_size (urls ∖ {[urljoin current_url href]}) urls) as H.
  specialize (H ltac:(set_solver)). lia.
Qed.

(** [_extract_next_listing_urls] returns at most three urls, pairwise
    distinct: exactly the resolved links of the three strategies (head
    link, next control, "More Reviews" anchor) that begin with
    [BASE_URL]. *)
Theorem next_listing_urls_spec (soup : Soup) (current_url : string) :
  let result := _extract_next_listing_urls urljoin soup current_url in
  let strategies :=
    [ sel_link_rel_next soup;
      tag_or (sel_a_rel_next soup) (sel_pagination_next soup);
      find_more_reviews soup ] in
  NoDup result /\
  (length result <= 3)%nat /\
  (forall u,
      u ∈ result <->
      PyStr.startswith u BASE_URL = true /\
      exists t href,
        t ∈ strategies /\ truthy_attr t "href" = Some href /\ u = urljoin current_url href).
Proof.
  intros result strategies. unfold result, _extract_next_listing_urls.
  set (urls1 := add_href urljoin current_url (sel_link_rel_next soup) ∅).
  set (urls2 := add_href urljoin current_url
                  (tag_or (sel_a_rel_next soup) (sel_pagination_next soup)) urls1).
  set (urls3 := add_href urljoin current_url (find_more_reviews soup) urls2).
  split; [apply NoDup_filter, NoDup_elements|].
  split.
  - etransitivity; [apply length_filter|].
    change (size urls3 <= 3)%nat.
    assert (size urls3 <= S (size urls2))%nat as H3 by apply add_href_size.
    assert (size urls2 <= S (size urls1))%nat as H2 by apply add_href_size.
    assert (size urls1 <= S (size (∅ : gset string)))%nat as H1 by apply add_href_size.
    rewrite size_empty in H1. lia.
  - intros u. rewrite list_elem_of_filter, elem_of_elements.
    unfold urls3, urls2, urls1. rewrite !add_href_spec.
    split.
    + intros [Hp H]. split; [exact Hp|].
      destruct H as [[[H|(h & Hh & ->)]|(h & Hh & ->)]|(h & Hh & ->)].
      * set_solver.
      * exists (sel_link_rel_next soup), h. split; [left|auto].
      * exists (tag_or (sel_a_rel_next soup) (sel_pagination_next soup)), h.
        split; [right; left|auto].
      * exists (find_more_reviews soup), h. split; [right; right; left|auto].
    + intros [Hp (t & h & Ht & Hh & ->)]. split; [exact Hp|].
      unfold strategies in Ht.
      apply elem_of_cons in Ht as [->|Ht]; [left; left; right; eauto|].
      apply elem_of_cons in Ht as [->|Ht]; [left; right; eauto|].
      apply list_elem_of_singleton in Ht as ->. right; eauto.
Qed.

End Listing.

(** ** Detail pages and documents *)

Section Details.

Context (py_float : string -> option PyFloat.float).

Lemma is_clean_strip (s : string) : is_clean s = true -> PyStr.strip s = s.
Proof.
  unfold is_clean, PyStr.strip. intros H. apply andb_true_iff in H as [H1 H2].
  rewrite (lstrip_of_single_spaced _ H1). now apply rstrip_of_no_trailing_space.
Qed.

Lemma clean_nonempty_items (texts : list string) :
  Forall (fun v => v <> "" /\ is_clean v = true) (clean_nonempty texts).
Proof.
  unfold clean_nonempty. apply Forall_forall. intros v Hv.
  apply list_elem_of_filter in Hv as [Hne Hin].
  apply list_elem_of_In, in_map_iff in Hin as (t & <- & _).
  split; [intros Heq; rewrite Heq in Hne; discriminate|apply clean_text_is_clean].
Qed.

Lemma Forall_flat_map {A B} (P : B -> Prop) (f : A -> list B) (l : list A) :
  (forall a, Forall P (f a)) -> Forall P (flat_map f l).
Proof.
  intros Hf. induction l as [|a l IH]; cbn; [constructor|].
  apply Forall_app. split; [apply Hf|exact IH].
Qed.

(** The names [_extract_credit_list] returns are non-empty and
    whitespace-normalized. *)
Lemma credit_list_items (soup : Soup) (labels : list string) :
  Forall (fun v => v <> "" /\ is_clean v = true) (_extract_credit_list soup labels).
Proof.
  unfold _extract_credit_list. apply Forall_flat_map. intros column.
  destruct (sel_h4 column) as [heading|]; [|constructor].
  destruct (bool_decide _); [|constructor].
  destruct (sel_li_a column); apply clean_nonempty_items.
Qed.

Lemma metadata_list_items (soup : Soup) (labels : list string) :
  Forall (fun v => v <> "" /\ PyStr.strip v = v) (_extract_metadata_list soup labels).
Proof.
  unfold _extract_metadata_list.
  set (values := flat_map _ (sel_review_info_items soup)).
  assert (Forall (fun v => v <> "" /\ PyStr.strip v = v) values) as Hvalues.
  { apply Forall_flat_map. intros item.
    destruct (sel_label item) as [label_el|]; [|constructor].
    destruct (sel_value item) as [value_el|]; [|constructor].
    destruct (bool_decide _); [|constructor].
    eapply Forall_impl; [apply split_list_items_stripped|]. cbn. tauto. }
  destruct values as [|v values']; [|exact Hvalues].
  eapply Forall_impl; [apply credit_list_items|].
  cbn. intros v [Hne Hclean]. split; [exact Hne|now apply is_clean_strip].
Qed.

Lemma extract_genres_invariant (soup : Soup) :
  NoDup (_extract_genres soup) /\
  Forall (fun g => g <> "" /\ is_clean g = true /\ PyStr.lower g <> "movie reviews")
         (_extract_genres soup).
Proof.
  unfold _extract_genres.
  destruct (_extract_primary_credit_column soup) as [column|];
    [|split; constructor].
  set (f := fun (genres : list string) (link : Tag) => _).
  set (P := fun g : string =>
              g <> "" /\ is_clean g = true /\ PyStr.lower g <> "movie reviews").
  assert (forall genres link,
             NoDup genres -> Forall P genres ->
             NoDup (f genres link) /\ Forall P (f genres link)) as Hstep.
  { intros genres link Hnd Hall. unfold f.
    set (text := ScraperUtils.clean_text (get_text link)).
    destruct (PyStr.nonempty text) eqn:Hne; cbn [andb]; [|auto].
    destruct (String.eqb_spec (PyStr.lower text) "movie reviews") as [Heq|Hneq];
      cbn [negb]; [auto|].
    destruct (bool_decide (text ∈ genres)) eqn:Hin; [auto|].
    apply bool_decide_eq_false in Hin. split.
    - apply NoDup_app. split; [exact Hnd|]. split; [|apply NoDup_singleton].
      intros g Hg Hg'. apply list_elem_of_singleton in Hg' as ->. contradiction.
    - apply Forall_app. split; [exact Hall|].
      constructor; [|constructor].
      split; [intros Heq; rewrite Heq in Hne; discriminate|].
      split; [apply clean_text_is_clean|exact Hneq]. }
  assert (forall links genres,
             NoDup genres -> Forall P genres ->
             NoDup (fold_left f links genres) /\ Forall P (fold_left f links genres))
    as Hgen.
  { induction links as [|link links IH]; intros genres Hnd Hall; [auto|].
    cbn [fold_left]. destruct (Hstep genres link Hnd Hall). now apply IH. }
  apply Hgen; constructor.
Qed.

(** The genres [_extract_genres] returns are pairwise distinct, non-empty,
    whitespace-normalized, and none of them reads "movie reviews" in any
    letter case. *)
Theorem extract_genres_items (soup : Soup) :
  NoDup (_extract_genres soup) /\
  Forall (fun g => g <> "" /\ is_clean g = true /\ PyStr.lower g <> "movie reviews")
         (_extract_genres soup).
Proof. apply extract_genres_invariant. Qed.

(** The genres, directors and cast of the details [_fetch_review] builds
    hold no empty name and no name with whitespace at either end. *)
Theorem review_details_names (soup : Soup) :
  let details := review_of_soup py_float soup in
  let ok := fun v : string => v <> "" /\ PyStr.strip v = v in
  Forall ok (ReviewDetails.movie_genres details) /\
  Forall ok (ReviewDetails.movie_directors details) /\
  Forall ok (ReviewDetails.movie_cast details).
Proof.
  cbn. split; [|split].
  - unfold list_or. destruct (_extract_genres soup) as [|g gs] eqn:Hg.
    + apply metadata_list_items.
    + rewrite <- Hg. eapply Forall_impl; [apply extract_genres_invariant|].
      cbn. intros v (Hne & Hclean & _). split; [exact Hne|now apply is_clean_strip].
  - apply metadata_list_items.
  - eapply Forall_impl; [apply credit_list_items|].
    cbn. intros v [Hne Hclean]. split; [exact Hne|now apply is_clean_strip].
Qed.

(** The title and year [_fetch_review] extracts: a normalized title, and a
    year between 1900 and 2099 whose digits stand in the title. *)
Lemma review_of_soup_title_year (soup : Soup) :
  let details := review_of_soup py_float soup in
  (forall t, ReviewDetails.movie_title details = Some t -> is_clean t = true) /\
  (forall y, ReviewDetails.movie_year details = Some y ->
             1900 <= y <= 2099 /\
             exists t, ReviewDetails.movie_title details = Some t /\
                       occurs_in (PyStr.of_int y) t).
Proof.
  cbn. unfold _extract_movie_title.
  destruct (tag_or (sel_h1_page_title soup) (sel_h1 soup)) as [heading|].
  - split; [intros t [= <-]; apply clean_text_is_clean|].
    intros y. set (t := ScraperUtils.clean_text (get_text heading)).
    destruct (PyStr.nonempty t) eqn:Hne; [|discriminate].
    unfold PyStr.str_or. rewrite Hne. intros Hy.
    apply extract_year_some in Hy as [Hr Ho]. split; [exact Hr|]. exists t. auto.
  - split; discriminate.
Qed.

Lemma build_document_of_well_formed_entry
    (urlparse_path : string -> string) (entry : ListingEntry.t) (soup : Soup) :
  well_formed_entry urlparse_path entry ->
  well_formed_document urlparse_path (_build_document entry (review_of_soup py_float soup)).
Proof.
  intros (Hne & Hclean & Hlooks & _ & Hyear & _).
  destruct (review_of_soup_title_year soup) as [Htitle Hdyear].
  set (details := review_of_soup py_float soup) in *.
  exists (opt_str_or_str (ReviewDetails.movie_title details) (ListingEntry.title entry)),
         (opt_int_or_int (opt_int_or (ReviewDetails.movie_year details)
                                     (ListingEntry.year entry)) 0),
         (ListingEntry.url entry).
  split; [apply build_document_title|].
  assert (opt_str_or_str (ReviewDetails.movie_title details) (ListingEntry.title entry) <> ""
          /\ is_clean (opt_str_or_str (ReviewDetails.movie_title details)
                                      (ListingEntry.title entry)) = true) as [Ht1 Ht2].
  { unfold opt_str_or_str. destruct (ReviewDetails.movie_title details) as [t|]; [|auto].
    unfold PyStr.str_or. destruct (PyStr.nonempty t) eqn:Hnt; [|auto].
    split; [intros Heq; rewrite Heq in Hnt; discriminate|now apply Htitle]. }
  split; [exact Ht1|]. split; [exact Ht2|].
  split; [apply build_document_year|].
  split.
  { unfold opt_int_or_int.
    destruct (opt_int_or _ _) as [y|] eqn:Hy; [|now left].
    destruct (Z.eqb_spec y 0); [now left|right].
    apply opt_int_or_cases in Hy as [Hy|Hy]; [now apply Hdyear in Hy|now apply Hyear]. }
  split; [reflexivity|]. split; [reflexivity|exact Hlooks].
Qed.

(** Every document built from a well-formed listing entry and a fetched
    detail page is well formed: non-empty normalized title, year 0 or
    between 1900 and 2099, site ["rogerebert"], the entry's review url. *)
Theorem built_document_well_formed
    (urlparse_path : string -> string) (entry : ListingEntry.t) (soup : Soup) :
  well_formed_entry urlparse_path entry ->
  well_formed_document urlparse_path (_build_document entry (review_of_soup py_float soup)).
Proof. apply build_document_of_well_formed_entry. Qed.

(** A built document has exactly the seventeen keys of the schema. *)
Theorem built_document_keys (entry : ListingEntry.t) (details : ReviewDetails.t) :
  dom (_build_document entry details) = list_to_set document_keys.
Proof.
  unfold _build_document, create_movie_document.
  rewrite !dom_insert_L, dom_empty_L. unfold document_keys. cbn [list_to_set].
  set_solver.
Qed.

End Details.

Lemma built_document_well_formed_witness :
  well_formed_document Sample.url_path
    (_build_document Sample.jaws (review_of_soup Sample.no_float Sample.review_page)).
Proof.
  apply (built_document_well_formed Sample.no_float Sample.url_path
           Sample.jaws Sample.review_page).
  split; [discriminate|]. split; [reflexivity|]. split; [reflexivity|].
  split; [reflexivity|]. split; [|reflexivity].
  intros y Hy. injection Hy as <-. lia.
Defined.

(** ** The frontier and the limit *)

Section Frontier.

Context (py_float : string -> option PyFloat.float)
        (urljoin : string -> string -> string)
        (urlparse_path : string -> string)
        {World : Type}
        (http_get : World -> string -> World * option Soup)
        (output_file : string)
        (write_file : World -> string -> list Document -> option Exception).

Local Abbreviation save_ := (save (World:=World) output_file write_file).
Local Abbreviation accept_ := (accept (World:=World) output_file write_file).
Local Abbreviation iteration_ :=
  (iteration py_float urljoin urlparse_path World http_get output_file write_file).
Local Abbreviation step_ :=
  (step py_float urljoin urlparse_path World http_get output_file write_file).
Local Abbreviation run_ :=
  (run py_float urljoin urlparse_path World http_get output_file write_file).
Local Abbreviation crawl_ :=
  (crawl py_float urljoin urlparse_path World http_get output_file write_file).
Local Abbreviation main_ :=
  (main py_float urljoin urlparse_path World http_get output_file write_file).

Lemma enqueue_new_invariant (xs queue : list string) :
  NoDup queue ->
  exists added,
    enqueue_new xs queue = queue ++ added /\
    NoDup (queue ++ added) /\
    (forall x, x ∈ added <-> x ∈ xs /\ x ∉ queue).
Proof.
  revert queue. induction xs as [|x xs IH]; intros queue Hnd.
  - exists []. rewrite app_nil_r. split; [reflexivity|]. split; [exact Hnd|].
    intros x. split; [intros H; inversion H|intros [H _]; inversion H].
  - cbn [enqueue_new fold_left].
    destruct (bool_decide (x ∈ queue)) eqn:Hin.
    + apply bool_decide_eq_true in Hin.
      destruct (IH queue Hnd) as (added & Heq & Hnd' & Hadded).
      exists added. split; [exact Heq|]. split; [exact Hnd'|].
      intros y. rewrite Hadded. split; [intros [H1 H2]; split; [now right|exact H2]|].
      intros [H1 H2]. split; [|exact H2].
      apply elem_of_cons in H1 as [->|H1]; [contradiction|exact H1].
    + apply bool_decide_eq_false in Hin.
      assert (NoDup (queue ++ [x])) as Hnd1.
      { apply NoDup_app. split; [exact Hnd|]. split; [|apply NoDup_singleton].
        intros y Hy Hy'. apply list_elem_of_singleton in Hy' as ->. contradiction. }
      destruct (IH (queue ++ [x]) Hnd1) as (added & Heq & Hnd' & Hadded).
      exists (x :: added). unfold enqueue_new in Heq. rewrite Heq.
      rewrite <- app_assoc in *. cbn [app] in *.
      split; [reflexivity|]. split; [exact Hnd'|].
      intros y. split.
      * intros Hy. apply elem_of_cons in Hy as [->|Hy].
        -- split; [left|exact Hin].
        -- apply Hadded in Hy as [H1 H2]. split; [now right|].
           intros H. apply H2, elem_of_app. now left.
      * intros [H1 H2]. apply elem_of_cons in H1 as [->|H1]; [left|].
        destruct (decide (y = x)) as [->|Hne]; [left|].
        right. apply Hadded. split; [exact H1|].
        intros H. apply elem_of_app in H as [H|H]; [contradiction|].
        apply list_elem_of_singleton in H. contradiction.
Qed.

(** [enqueue_new] keeps the queue in order and appends, once each, the
    urls that are not yet in it. *)
Theorem enqueue_new_spec (xs queue : list string) :
  NoDup queue ->
  exists added,
    enqueue_new xs queue = queue ++ added /\
    NoDup (queue ++ added) /\
    (forall x, x ∈ added <-> x ∈ xs /\ x ∉ queue).
Proof. apply enqueue_new_invariant. Qed.

Lemma enqueue_new_spec_witness :
  exists added,
    enqueue_new ["b"; "c"; "a"; "c"] ["a"; "b"] = ["a"; "b"] ++ added /\
    NoDup (["a"; "b"] ++ added) /\
    (forall x, x ∈ added <-> x ∈ ["b"; "c"; "a"; "c"] /\ x ∉ ["a"; "b"]).
Proof.
  apply (enqueue_new_spec ["b"; "c"; "a"; "c"] ["a"; "b"]).
  apply NoDup_cons. split; [|apply NoDup_singleton].
  intros H. apply list_elem_of_singleton in H. discriminate.
Defined.

Lemma enqueue_new_NoDup (xs queue : list string) :
  NoDup queue -> NoDup (enqueue_new xs queue).
Proof.
  intros Hnd. destruct (enqueue_new_invariant xs queue Hnd) as (added & -> & H & _). exact H.
Qed.

(** One step, case by case, in the order of [iteration_cases]: a listing
    page parsed, a listing request failed, the limit reached, a seen url,
    a detail request failed, a document accepted. *)
Ltac step_inversion Hstep limit s :=
  unfold step in Hstep;
  destruct (iteration_cases py_float urljoin urlparse_path http_get output_file write_file
              limit s)
    as [(listing_url & queue & w' & soup & Hpending & Hqueue & Hlimit & Hget & Hiter)
       |[(listing_url & queue & w' & Hpending & Hqueue & Hlimit & Hget & Hiter)
        |[(entry & rest & Hpending & Hlimit & Hiter)
         |[(entry & rest & Hpending & Hlimit & Hseen & Hiter)
          |[(entry & rest & w' & Hpending & Hlimit & Hseen & Hget & Hiter)
           |[(entry & rest & w' & soup & s1 & Hpending & Hlimit & Hseen & Hget
              & Haccept & Hiter)
            |[(entry & rest & w' & soup & e & _ & _ & _ & _ & _ & Hiter)
             |(_ & _ & Hiter)]]]]]]];
  rewrite Hiter in Hstep; cbv iota in Hstep;
  try discriminate Hstep; injection Hstep as <-; clear Hiter.

Lemma initial_queue_NoDup (start_page : Z) : NoDup (initial_queue start_page).
Proof.
  unfold initial_queue. apply enqueue_new_NoDup.
  destruct (Z.ltb 1 start_page); [apply NoDup_singleton|constructor].
Qed.

(** The listing queue never holds a url twice. *)
Theorem listing_queue_without_duplicates
    (w : World) (file : option File) (limit start_page : Z) (n : nat) :
  NoDup (listing_queue (run_ n limit (crawl_init w file start_page))).
Proof.
  assert (forall s, NoDup (listing_queue s) -> NoDup (listing_queue (run_ n limit s))) as Hrun.
  { induction n as [|k IH]; intros s Hs; cbn [run]; [exact Hs|].
    destruct (step_ limit s) as [s'|] eqn:Hstep; [|exact Hs].
    apply IH. step_inversion Hstep limit s; cbn [listing_queue].
    - rewrite Hqueue in Hs. apply enqueue_new_NoDup. now apply NoDup_cons in Hs as [_ Hs].
    - rewrite Hqueue in Hs. now apply NoDup_cons in Hs as [_ Hs].
    - exact Hs.
    - exact Hs.
    - exact Hs.
    - destruct (accept_frame output_file write_file _ _ _ _ Haccept) as [-> _]. exact Hs. }
  apply Hrun. unfold crawl_init. destruct (load_existing file). cbn.
  apply initial_queue_NoDup.
Qed.

(** *** The limit *)

(** In every state of a session the number of documents is the number
    loaded plus the number collected, and the number collected does not
    exceed the limit (nor 0, for a negative limit); once the limit is
    reached a step makes no request. *)
Theorem crawl_respects_limit
    (w : World) (file : option File) (limit start_page : Z) (n : nat) :
  let s0 := crawl_init w file start_page in
  let s := run_ n limit s0 in
  length (documents s) = (length (documents s0) + collected s)%nat /\
  Z.of_nat (collected s) <= Z.max 0 limit /\
  (forall st st', limit <= Z.of_nat (collected st) -> step_ limit st = Some st' ->
                  trace st' = trace st /\ documents st' = documents st /\ pending st' = []).
Proof.
  intros s0 s.
  assert (forall k st,
             length (documents st) = (length (documents s0) + collected st)%nat /\
             Z.of_nat (collected st) <= Z.max 0 limit ->
             length (documents (run_ k limit st))
             = (length (documents s0) + collected (run_ k limit st))%nat /\
             Z.of_nat (collected (run_ k limit st)) <= Z.max 0 limit) as Hrun.
  { induction k as [|k IH]; intros st Hst; cbn [run]; [exact Hst|].
    destruct (step_ limit st) as [st'|] eqn:Hstep; [|exact Hst].
    apply IH. destruct Hst as [Hlen Hle].
    step_inversion Hstep limit st; cbn [documents collected]; auto.
    destruct (accept_effect output_file write_file _ _ _ _ Haccept) as (-> & _ & -> & _).
    cbn [documents collected]. rewrite length_app. cbn [length]. split; lia. }
  split; [|split].
  - apply Hrun. unfold s0, crawl_init. destruct (load_existing file). cbn. split; lia.
  - apply Hrun. unfold s0, crawl_init. destruct (load_existing file). cbn. split; lia.
  - intros st st' Hreached Hstep.
    step_inversion Hstep limit st; cbn [trace documents pending]; auto; lia.
Qed.

(** *** Documents the crawl appends *)

Lemma crawl_well_formed_step (limit : Z) (s0 s s' : Session World) :
  (Forall (well_formed_entry urlparse_path) (pending s) /\
   exists new, documents s = documents s0 ++ new /\
               Forall (well_formed_document urlparse_path) new) ->
  step_ limit s = Some s' ->
  Forall (well_formed_entry urlparse_path) (pending s') /\
  exists new, documents s' = documents s0 ++ new /\
              Forall (well_formed_document urlparse_path) new.
Proof.
  intros [Hpend (new & Hdocs & Hnew)] Hstep.
  step_inversion Hstep limit s; cbn [pending documents].
  - split; [|eauto].
    destruct (listing_entries_invariant urljoin urlparse_path (sel_review_links soup) [] ∅)
      as (_ & _ & Hwf); [cbn; lia|constructor| |constructor|].
    { intros e He. inversion He. }
    exact Hwf.
  - split; [constructor|eauto].
  - split; [constructor|eauto].
  - rewrite Hpending in Hpend.
    apply Forall_cons in Hpend as [_ Hrest]. split; [exact Hrest|eauto].
  - rewrite Hpending in Hpend.
    apply Forall_cons in Hpend as [_ Hrest]. split; [exact Hrest|eauto].
  - rewrite Hpending in Hpend.
    apply Forall_cons in Hpend as [Hentry Hrest].
    destruct (accept_effect output_file write_file _ _ _ _ Haccept) as (-> & _).
    destruct (accept_frame output_file write_file _ _ _ _ Haccept) as (_ & ->).
    cbn [pending documents]. split; [exact Hrest|].
    exists (new ++ [_build_document entry (review_of_soup py_float soup)]).
    rewrite Hdocs, app_assoc. split; [reflexivity|].
    apply Forall_app. split; [exact Hnew|].
    constructor; [|constructor].
    now apply build_document_of_well_formed_entry.
Qed.

(** Every document a session appends is well formed: a non-empty
    normalized title, a year that is 0 or between 1900 and 2099, the site
    ["rogerebert"] and a url with a review path. *)
Theorem crawl_appends_well_formed_documents
    (w : World) (file : option File) (limit start_page : Z) (n : nat) :
  let s0 := crawl_init w file start_page in
  let s := run_ n limit s0 in
  exists new,
    documents s = documents s0 ++ new /\
    Forall (well_formed_document urlparse_path) new.
Proof.
  intros s0 s.
  assert (forall k st,
             (Forall (well_formed_entry urlparse_path) (pending st) /\
              exists new, documents st = documents s0 ++ new /\
                          Forall (well_formed_document urlparse_path) new) ->
             (Forall (well_formed_entry urlparse_path) (pending (run_ k limit st)) /\
              exists new, documents (run_ k limit st) = documents s0 ++ new /\
                          Forall (well_formed_document urlparse_path) new)) as Hrun.
  { induction k as [|k IH]; intros st Hst; cbn [run]; [exact Hst|].
    destruct (step_ limit st) as [st'|] eqn:Hstep; [|exact Hst].
    apply IH. eapply crawl_well_formed_step; eauto. }
  apply Hrun. split.
  - unfold s0, crawl_init. destruct (load_existing file). cbn. constructor.
  - exists []. rewrite app_nil_r. split; [reflexivity|constructor].
Qed.

(** *** A session in which every request fails *)





(** *** Resuming from the output file *)

(** A session started from the file that [main] left loads the documents
    [main] ended with, keeps them in place at the front of its list, and
    never requests the detail page of a url one of them carries. *)
Theorem resumed_session_keeps_and_skips_saved_documents
    (fuel : nat) (limit start_page : Z) (w : World) (file : option File)
    (sf : Session World)
    (w' : World) (limit' start_page' : Z) (n : nat) :
  main_ fuel limit start_page w file = Some sf ->
  let s0 := crawl_init w' (disk sf) start_page' in
  let s := run_ n limit' s0 in
  documents s0 = documents sf /\
  (exists new, documents s = documents sf ++ new) /\
  (forall d u, d ∈ documents sf -> doc_url d = Some u -> GetDetail u ∉ trace s).
Proof.
  intros Hmain s0 s.
  assert (forall u, GetDetail u ∉ trace s0) as Hquiet.
  { unfold s0, crawl_init. destruct (load_existing (disk sf)). cbn [trace].
    intros u Hu. inversion Hu. }
  assert (fresh_urls s0 s) as (new & _ & Hdocs & _ & _ & _ & _ & Hskip).
  { unfold s. apply fresh_urls_run.
    apply (fresh_urls_init py_float urljoin urlparse_path). exact Hquiet. }
  assert (documents s0 = documents sf) as Hloaded.
  { unfold main, crawl in Hmain.
    pose proof (checkpointed_run py_float urljoin urlparse_path http_get output_file
                  write_file fuel limit _ (checkpointed_init w file start_page))
      as (tail & Hck & _).
    destruct (loads file); [|discriminate Hmain].
    destruct (iteration_ limit (run_ fuel limit (crawl_init w file start_page)));
      try discriminate Hmain.
    destruct (save_ (run_ fuel limit (crawl_init w file start_page)))
      as [sf'|e] eqn:Hsave; [|discriminate Hmain].
    injection Hmain as ->.
    unfold s0, crawl_init, load_existing.
    destruct (save_effect output_file write_file _ _ Hsave)
      as [(_ & _ & -> & _ & _ & _ & _ & -> & _)|[Hempty ->]]; [reflexivity|].
    rewrite Hempty in Hck. symmetry in Hck. apply app_eq_nil in Hck as [Hck _].
    rewrite Hempty. unfold persisted in Hck.
    destruct (disk (run_ fuel limit (crawl_init w file start_page))) as [[docs| |]|];
      cbn [documents]; [exact Hck|reflexivity|reflexivity|reflexivity]. }
  split; [exact Hloaded|]. split.
  - exists new. rewrite <- Hloaded. exact Hdocs.
  - intros d u Hd Hu Hrequest. apply (Hskip u Hrequest).
    apply (crawl_init_seen py_float urljoin urlparse_path).
    exists d. fold s0. rewrite Hloaded. auto.
Qed.

End Frontier.

Lemma crawl_respects_limit_witness :
  exists st',
    step Sample.no_float Sample.urljoin_absolute Sample.url_path unit
         Sample.two_page_site Sample.output_file Sample.write_ok 0
         (mkSession tt [] ∅ 0%nat [] [Sample.jaws] None []) = Some st' /\
    trace st' = [] /\ documents st' = [] /\ pending st' = [].
Proof.
  exists (mkSession tt [] ∅ 0%nat [] [] None []).
  split; [reflexivity|].
  destruct (crawl_respects_limit
              Sample.no_float Sample.urljoin_absolute Sample.url_path Sample.two_page_site
                Sample.output_file Sample.write_ok
              tt None 0 1 0) as (_ & _ & Hstop).
  apply (Hstop (mkSession tt [] ∅ 0%nat [] [Sample.jaws] None [])
               (mkSession tt [] ∅ 0%nat [] [] None [])); [cbn; lia|reflexivity].
Defined.


Lemma resumed_session_keeps_and_skips_saved_documents_witness :
  let url := Sample.review_url "jaws-movie-review-1975" in
  let doc : Document := {[ "url" := VStr url ]} in
  let sf := mkSession tt [doc] (seed_seen [doc]) 0%nat [] [] (Some (JsonDocs [doc]))
                      [GetListing "https://www.rogerebert.com/";
                       GetListing "https://www.rogerebert.com/reviews";
                       WriteFile [doc]] in
  main Sample.no_float Sample.urljoin_absolute Sample.url_path unit Sample.offline
    Sample.output_file Sample.write_ok
       2 100 1 tt (Some (JsonDocs [doc])) = Some sf /\
  GetDetail url
  ∉ trace (run Sample.no_float Sample.urljoin_absolute Sample.url_path unit Sample.offline
    Sample.output_file Sample.write_ok
               20 10 (crawl_init tt (disk sf) 1)).
Proof.
  intros url doc sf.
  assert (main Sample.no_float Sample.urljoin_absolute Sample.url_path unit Sample.offline
    Sample.output_file Sample.write_ok
               2 100 1 tt (Some (JsonDocs [doc])) = Some sf) as Hmain by reflexivity.
  split; [exact Hmain|].
  destruct (resumed_session_keeps_and_skips_saved_documents
              Sample.no_float Sample.urljoin_absolute Sample.url_path Sample.offline
                Sample.output_file Sample.write_ok
              2 100 1 tt (Some (JsonDocs [doc])) sf tt 10 1 20 Hmain) as (_ & _ & Hskip).
  apply (Hskip doc url); [left|reflexivity].
Defined.
